(** * Script-context reconstruction of [src/utils/tx_tools.py]

    A shallow embedding of the converters from ledger transactions
    (pycardano objects) to the virtual machine's data model (the opshin
    prelude), and of the witness resolver
    [generate_script_contexts_resolved].

    Python objects are modelled by records and inductive types, [None] by
    [option], raised exceptions by the [result] type, and the one list the
    resolver updates in place (the witness set's script list) by threading
    the transaction through the resolver. *)

From Stdlib Require Import ZArith.
From stdpp Require Import base option list gmap strings fin_maps.

Open Scope Z_scope.

(** Python [bytes]; [b_empty] is the literal [b''] . *)
Abbreviation bytes := string (only parsing).
Definition b_empty : bytes := EmptyString.

(** ** Exceptions *)

Inductive RedeemerTag := SPEND | MINT | CERT | REWARD.

#[global] Instance RedeemerTag_eq_dec : EqDecision RedeemerTag.
Proof. solve_decision. Defined.

(** One constructor per [raise] site of the module (named after the error
    kinds of the design), and the built-in exceptions that escape it. *)
Inductive Exception :=
| UnsupportedKeyType_payment
    (* NotImplementedError: Unknown payment key type *)
| UnsupportedKeyType_stake
    (* NotImplementedError: Unknown stake key type *)
| CertificatesUnsupported
    (* NotImplementedError: Can not convert certificates yet *)
| MissingRedeemer (tag : RedeemerTag) (i : nat)
    (* ValueError: Missing redeemer for script input i / for mint i *)
| UnsupportedScript
    (* NotImplementedError: Can not validate spending of non plutus v2 script *)
| MissingDatum_hash (h : bytes)
    (* ValueError: No datum with hash h provided for transaction *)
| MissingDatum_none
    (* ValueError: Spending input is missing an attached datum *)
| PyTypeError
| PyAttributeError
| PyDecodeError.

#[global] Instance Exception_eq_dec : EqDecision Exception.
Proof. solve_decision. Defined.

Inductive result (A : Type) :=
| Ok (a : A)
| Raise (e : Exception).
Arguments Ok {A} a.
Arguments Raise {A} e.

#[global] Instance result_ret : MRet result := fun _ a => Ok a.
#[global] Instance result_bind : MBind result := fun _ _ f m =>
  match m with
  | Ok a => f a
  | Raise e => Raise e
  end.

(** A list comprehension [[f(x) for x in l]] whose body may raise:
    elements are converted left to right and the first exception wins. *)
Fixpoint comprehension {A B} (f : A -> result B) (l : list A) : result (list B) :=
  match l with
  | [] => Ok []
  | x :: l' => y ← f x; ys ← comprehension f l'; Ok (y :: ys)
  end.

(** A dict comprehension over string keys: later items overwrite earlier
    ones with the same key. *)
Definition dict_of_items {V} (items : list (bytes * V)) : gmap string V :=
  foldl (fun m kv => <[kv.1 := kv.2]> m) ∅ items.

(** A dict whose keys are not byte strings, in insertion order. *)
Fixpoint dict_set {K V} `{EqDecision K} (k : K) (v : V) (d : list (K * V))
  : list (K * V) :=
  match d with
  | [] => [(k, v)]
  | (k', v') :: d' =>
      if decide (k = k') then (k', v) :: d' else (k', v') :: dict_set k v d'
  end.

(** ** The ledger side: pycardano *)

Module pycardano.

(** What an address part can hold. *)
Inductive AddressPart :=
| VerificationKeyHash (payload : bytes)
| ScriptHash (payload : bytes)
| PointerAddress (slot tx_index cert_index : Z).

Inductive Network := TESTNET | MAINNET.

Record Address := {
  payment_part : option AddressPart;
  staking_part : option AddressPart;
  network : Network
}.

(** A datum is opaque here: it is tested for presence, hashed and
    passed on. *)
Inductive Datum := RawCBOR (cbor : bytes).

Inductive ScriptType :=
| NativeScript (cbor : bytes)
| PlutusV1Script (b : bytes)
| PlutusV2Script (b : bytes).

(** [Asset] and [MultiAsset] are dicts; their items are listed in
    iteration order. *)
Definition Asset := list (bytes * Z).
Definition MultiAsset := list (bytes * Asset).

Record Value := {
  coin : Z;
  multi_asset : option MultiAsset
}.

Record TransactionInput := {
  transaction_id : bytes;
  input_index : Z
}.

Record TransactionOutput := {
  address : Address;
  amount : Value;
  datum_hash : option bytes;
  datum : option Datum;
  script : option ScriptType
}.

Record UTxO := {
  input : TransactionInput;
  output : TransactionOutput
}.

Record ExecutionUnits := { mem : Z; steps : Z }.

(** The execution units of a redeemer are optional: a redeemer built
    without them has [None]. *)
Record Redeemer := {
  tag : option RedeemerTag;
  index : Z;
  data : Datum;
  ex_units : option ExecutionUnits
}.

Inductive Certificate := RawCertificate (cbor : bytes).

Record TransactionBody := {
  inputs : list TransactionInput;
  outputs : list TransactionOutput;
  fee : Z;
  ttl : option Z;
  certificates : option (list Certificate);
  withdraws : option (list (bytes * Z));
  mint : option MultiAsset;
  validity_start : option Z;
  required_signers : option (list bytes);
  reference_inputs : option (list TransactionInput)
}.

Record TransactionWitnessSet := {
  redeemer : option (list Redeemer);
  plutus_v2_script : option (list ScriptType);
  plutus_data : option (list Datum)
}.

Record Transaction := {
  transaction_body : TransactionBody;
  transaction_witness_set : TransactionWitnessSet
}.

#[global] Instance AddressPart_eq_dec : EqDecision AddressPart.
Proof. solve_decision. Defined.
#[global] Instance Datum_eq_dec : EqDecision Datum.
Proof. solve_decision. Defined.
#[global] Instance ScriptType_eq_dec : EqDecision ScriptType.
Proof. solve_decision. Defined.

(** The functions of the library that the module calls and whose
    values are not fixed here (hashes and decoders). *)
Class Library := {
  (** [plutus_script_hash(PlutusV2Script(b))], as a payload *)
  plutus_script_hash : bytes -> bytes;
  (** [pycardano.script_hash(s).to_primitive()] *)
  script_hash : ScriptType -> bytes;
  (** [datum_hash(d)], as a payload *)
  hash_of_datum : Datum -> bytes;
  (** [pycardano.datum_hash(r)] on a redeemer *)
  hash_of_redeemer : Redeemer -> bytes;
  (** [tx_body.id.to_primitive()] *)
  id : TransactionBody -> bytes;
  (** [pycardano.Address.from_primitive(k)]; [None] when decoding raises *)
  address_from_primitive : bytes -> option Address;
  (** the [hash] method of a Plutus script object, when its class has one *)
  hash_method : option (bytes -> bytes)
}.

End pycardano.

(** ** The virtual machine side: opshin.prelude *)

Inductive Credential :=
| PubKeyCredential (credential_hash : bytes)
| ScriptCredential (credential_hash : bytes).

Inductive StakingCredential :=
| StakingHash (value : Credential)
| StakingPtr (slot_no block_no index : Z).

Inductive MaybeStakingCredential :=
| NoStakingCredential
| SomeStakingCredential (staking_credential : StakingCredential).

Record Address := {
  payment_credential : Credential;
  staking_credential : MaybeStakingCredential
}.

Inductive OutputDatum :=
| NoOutputDatum
| SomeOutputDatumHash (datum_hash : bytes)
| SomeOutputDatum (datum : pycardano.Datum).

Inductive MaybeScriptHash :=
| NoScriptHash
| SomeScriptHash (script_hash : bytes).

Record TxOut := {
  tx_out_address : Address;
  tx_out_value : gmap string (gmap string Z);
  tx_out_datum : OutputDatum;
  tx_out_reference_script : MaybeScriptHash
}.

Inductive TxId := mkTxId (tx_id : bytes).

Record TxOutRef := {
  out_ref_id : TxId;
  out_ref_idx : Z
}.

Record TxInInfo := {
  out_ref : TxOutRef;
  resolved : TxOut
}.

Inductive ExtendedPOSIXTime :=
| NegInfPOSIXTime
| FinitePOSIXTime (time : Z)
| PosInfPOSIXTime.

Inductive BoolData := TrueData | FalseData.

Inductive LowerBoundPOSIXTime :=
  mkLowerBoundPOSIXTime (limit : ExtendedPOSIXTime) (closed : BoolData).
Inductive UpperBoundPOSIXTime :=
  mkUpperBoundPOSIXTime (limit : ExtendedPOSIXTime) (closed : BoolData).

Record POSIXTimeRange := {
  lower_bound : LowerBoundPOSIXTime;
  upper_bound : UpperBoundPOSIXTime
}.

Inductive DCert := mkDCert (cbor : bytes).

(** The twelve fields are in the order of the constructor call in
    [to_tx_info]. *)
Record TxInfo := {
  tx_inputs : list TxInInfo;
  tx_reference_inputs : list TxInInfo;
  tx_outputs : list TxOut;
  tx_fee : gmap string (gmap string Z);
  tx_mint : gmap string (gmap string Z);
  tx_dcert : list DCert;
  tx_wdrl : list (StakingCredential * Z);
  tx_valid_range : POSIXTimeRange;
  tx_signatories : list bytes;
  tx_datums : gmap string pycardano.Datum;
  tx_redeemers : gmap string pycardano.Redeemer;
  tx_id : TxId
}.

Inductive ScriptPurpose :=
| Minting (policy_id : bytes)
| Spending (tx_out_ref : TxOutRef).

Record ScriptContext := {
  tx_info : TxInfo;
  purpose : ScriptPurpose
}.

#[global] Instance Credential_eq_dec : EqDecision Credential.
Proof. solve_decision. Defined.
#[global] Instance StakingCredential_eq_dec : EqDecision StakingCredential.
Proof. solve_decision. Defined.

(** What the resolver returns for one script: the script, its datum (for
    spending), its redeemer and the purpose-tagged context. *)
Record ScriptInvocation := {
  script_type : pycardano.ScriptType;
  datum : option pycardano.Datum;
  redeemer : pycardano.Redeemer;
  script_context : ScriptContext
}.

(** The outcome of [next(...)] over a generator expression: the first
    element that passes the filter, [StopIteration] when none does, or a
    [TypeError] raised while iterating or filtering. *)
Inductive next_result (A : Type) :=
| Found (a : A)
| StopIteration
| TypeError.
Arguments Found {A} a.
Arguments StopIteration {A}.
Arguments TypeError {A}.

(** ** The converters *)

Section Converters.
Context `{lib : pycardano.Library}.

Definition to_staking_hash (sk : option pycardano.AddressPart)
  : result StakingCredential :=
  match sk with
  | Some (pycardano.PointerAddress slot tx_index cert_index) =>
      Ok (StakingPtr slot tx_index cert_index)
  | Some (pycardano.VerificationKeyHash payload) =>
      Ok (StakingHash (PubKeyCredential payload))
  | Some (pycardano.ScriptHash payload) =>
      Ok (StakingHash (ScriptCredential payload))
  | None => Raise UnsupportedKeyType_stake
  end.

(** [try: ... except NotImplementedError: return NoStakingCredential()] *)
Definition to_staking_credential (sk : option pycardano.AddressPart)
  : MaybeStakingCredential :=
  match to_staking_hash sk with
  | Ok h => SomeStakingCredential h
  | Raise _ => NoStakingCredential
  end.

Fixpoint to_wdrl_items (items : list (bytes * Z))
    (acc : list (StakingCredential * Z)) : result (list (StakingCredential * Z)) :=
  match items with
  | [] => Ok acc
  | (key, val) :: items' =>
      a ← match pycardano.address_from_primitive key with
          | Some a => Ok a
          | None => Raise PyDecodeError
          end;
      h ← to_staking_hash (pycardano.staking_part a);
      to_wdrl_items items' (dict_set h val acc)
  end.

Definition to_wdrl (wdrl : option (list (bytes * Z)))
  : result (list (StakingCredential * Z)) :=
  match wdrl with
  | None => Ok []
  | Some items => to_wdrl_items items []
  end.

Definition to_valid_range (validity_start ttl : option Z) : POSIXTimeRange :=
  let lower_bound :=
    match validity_start with
    | None => mkLowerBoundPOSIXTime NegInfPOSIXTime FalseData
    | Some validity_start =>
        mkLowerBoundPOSIXTime (FinitePOSIXTime validity_start) TrueData
    end in
  let upper_bound :=
    match ttl with
    | None => mkUpperBoundPOSIXTime PosInfPOSIXTime FalseData
    | Some ttl => mkUpperBoundPOSIXTime (FinitePOSIXTime ttl) TrueData
    end in
  {| lower_bound := lower_bound; upper_bound := upper_bound |}.

Definition to_pubkeyhash (vkh : bytes) : bytes := vkh.

Definition to_tx_id (tx_id : bytes) : TxId := mkTxId tx_id.

Definition to_dcert (c : pycardano.Certificate) : result DCert :=
  Raise CertificatesUnsupported.

(** The inner comprehension of [multiasset_to_value],
    [{TokenName(asset_name): quantity for asset_name, quantity in asset}].
    Iterating an [Asset] yields its keys, the asset names, and unpacking the
    first of them into [asset_name, quantity] raises [TypeError]: the
    comprehension returns only for an asset that holds no token, and then
    the empty dict. *)
Definition asset_to_tokens (asset : pycardano.Asset) : result (gmap string Z) :=
  match asset with
  | [] => Ok ∅
  | _ :: _ => Raise PyTypeError
  end.

(** The outer comprehension visits the policies of the multi-asset. *)
Definition multiasset_to_value (ma : option pycardano.MultiAsset)
  : result (gmap string (gmap string Z)) :=
  match ma with
  | None => Ok {[ b_empty := {[ b_empty := 0 ]} ]}
  | Some ma =>
      items ← comprehension
                (fun pa : bytes * pycardano.Asset =>
                   tokens ← asset_to_tokens pa.2; Ok (pa.1, tokens)) ma;
      Ok (dict_of_items items)
  end.

Definition value_to_value (v : pycardano.Value) : result (gmap string (gmap string Z)) :=
  ma ← multiasset_to_value (pycardano.multi_asset v);
  Ok (<[ b_empty := {[ b_empty := pycardano.coin v ]} ]> ma).

Definition to_payment_credential (c : option pycardano.AddressPart)
  : result Credential :=
  match c with
  | Some (pycardano.VerificationKeyHash payload) => Ok (PubKeyCredential payload)
  | Some (pycardano.ScriptHash payload) => Ok (ScriptCredential payload)
  | _ => Raise UnsupportedKeyType_payment
  end.

Definition to_address (a : pycardano.Address) : result Address :=
  p ← to_payment_credential (pycardano.payment_part a);
  Ok {| payment_credential := p;
        staking_credential := to_staking_credential (pycardano.staking_part a) |}.

Definition to_tx_out (o : pycardano.TransactionOutput) : result TxOut :=
  let output_datum :=
    match pycardano.datum o with
    | Some d => SomeOutputDatum d
    | None =>
        match pycardano.datum_hash o with
        | Some h => SomeOutputDatumHash h
        | None => NoOutputDatum
        end
    end in
  let script :=
    match pycardano.script o with
    | None => NoScriptHash
    | Some s => SomeScriptHash (pycardano.script_hash s)
    end in
  a ← to_address (pycardano.address o);
  value ← value_to_value (pycardano.amount o);
  Ok {| tx_out_address := a;
        tx_out_value := value;
        tx_out_datum := output_datum;
        tx_out_reference_script := script |}.

Definition to_tx_out_ref (i : pycardano.TransactionInput) : TxOutRef :=
  {| out_ref_id := mkTxId (pycardano.transaction_id i);
     out_ref_idx := pycardano.input_index i |}.

Definition to_tx_in_info (io : pycardano.TransactionInput * pycardano.TransactionOutput)
  : result TxInInfo :=
  o ← to_tx_out io.2;
  Ok {| out_ref := to_tx_out_ref io.1; resolved := o |}.

(** The arguments of the [TxInfo(...)] call are evaluated in order, so
    the first conversion that raises decides the exception. *)
Definition to_tx_info (tx : pycardano.Transaction)
    (resolved_inputs resolved_reference_inputs : list pycardano.TransactionOutput)
  : result TxInfo :=
  let tx_body := pycardano.transaction_body tx in
  let witness := pycardano.transaction_witness_set tx in
  let datums :=
    omap pycardano.datum
      (pycardano.outputs tx_body ++ resolved_inputs ++ resolved_reference_inputs) in
  let datums :=
    match pycardano.plutus_data witness with
    | Some (d :: ds) => datums ++ d :: ds
    | _ => datums
    end in
  ins ← comprehension to_tx_in_info (zip (pycardano.inputs tx_body) resolved_inputs);
  refs ← match pycardano.reference_inputs tx_body with
         | Some reference_inputs =>
             comprehension to_tx_in_info (zip reference_inputs resolved_reference_inputs)
         | None => Ok []
         end;
  outs ← comprehension to_tx_out (pycardano.outputs tx_body);
  fee ← value_to_value
          {| pycardano.coin := pycardano.fee tx_body;
             pycardano.multi_asset := Some [] |};
  mint ← multiasset_to_value (pycardano.mint tx_body);
  dcert ← match pycardano.certificates tx_body with
          | Some (c :: cs) => comprehension to_dcert (c :: cs)
          | _ => Ok []
          end;
  wdrl ← to_wdrl (pycardano.withdraws tx_body);
  let valid_range :=
    to_valid_range (pycardano.validity_start tx_body) (pycardano.ttl tx_body) in
  let signatories :=
    match pycardano.required_signers tx_body with
    | Some (s :: ss) => map to_pubkeyhash (s :: ss)
    | _ => []
    end in
  let datum_table :=
    dict_of_items (map (fun d => (pycardano.hash_of_datum d, d)) datums) in
  redeemer_table ←
    match pycardano.redeemer witness with
    | Some rs => Ok (dict_of_items (map (fun r => (pycardano.hash_of_redeemer r, r)) rs))
    | None => Raise PyTypeError
    end;
  Ok {| tx_inputs := ins;
        tx_reference_inputs := refs;
        tx_outputs := outs;
        tx_fee := fee;
        tx_mint := mint;
        tx_dcert := dcert;
        tx_wdrl := wdrl;
        tx_valid_range := valid_range;
        tx_signatories := signatories;
        tx_datums := datum_table;
        tx_redeemers := redeemer_table;
        tx_id := to_tx_id (pycardano.id tx_body) |}.

(** The payment part of the address of an output is a key hash or a script
    hash. *)
Definition payment_supported (o : pycardano.TransactionOutput) : Prop :=
  exists c, to_payment_credential (pycardano.payment_part (pycardano.address o)) = Ok c.

(** A multi-asset, if present, whose assets hold no token. *)
Definition token_free (ma : option pycardano.MultiAsset) : Prop :=
  Forall (fun pa : bytes * pycardano.Asset => pa.2 = []) (default [] ma).

#[global] Instance token_free_dec (ma : option pycardano.MultiAsset) :
  Decision (token_free ma).
Proof. unfold token_free. apply _. Defined.

(** An output is converted exactly when the payment part of its address is
    a key hash or a script hash and its amount holds no token. *)
Definition convertible (o : pycardano.TransactionOutput) : Prop :=
  payment_supported o /\ token_free (pycardano.multi_asset (pycardano.amount o)).

End Converters.


(** ** The witness resolver *)

Section Resolver.
Context `{lib : pycardano.Library}.

(** [r.index == i and r.tag == tag] *)
Definition redeemer_matches (i : nat) (t : RedeemerTag) (r : pycardano.Redeemer) : bool :=
  bool_decide (pycardano.index r = Z.of_nat i)
  && bool_decide (pycardano.tag r = Some t).

(** [next(r for r in tx.transaction_witness_set.redeemer if ...)];
    iterating [None] is a [TypeError]. *)
Definition next_redeemer (redeemers : option (list pycardano.Redeemer))
    (i : nat) (t : RedeemerTag) : next_result pycardano.Redeemer :=
  match redeemers with
  | None => TypeError
  | Some rs =>
      match List.find (redeemer_matches i t) rs with
      | Some r => Found r
      | None => StopIteration
      end
  end.

(** The cast [PlutusV2Script(s)]: a Plutus script is a byte string and is
    taken as it is, a native script is not and the constructor raises
    [TypeError]. *)
Definition as_plutus_v2 (s : pycardano.ScriptType) : option bytes :=
  match s with
  | pycardano.NativeScript _ => None
  | pycardano.PlutusV1Script b => Some b
  | pycardano.PlutusV2Script b => Some b
  end.

Fixpoint first_script (target : bytes) (scripts : list pycardano.ScriptType)
  : next_result pycardano.ScriptType :=
  match scripts with
  | [] => StopIteration
  | s :: scripts' =>
      match as_plutus_v2 s with
      | None => TypeError
      | Some b =>
          if decide (pycardano.plutus_script_hash b = target) then Found s
          else first_script target scripts'
      end
  end.

(** [next(s for s in tx.transaction_witness_set.plutus_v2_script
          if plutus_script_hash(PlutusV2Script(s)) == target)] *)
Definition next_script (scripts : option (list pycardano.ScriptType)) (target : bytes)
  : next_result pycardano.ScriptType :=
  match scripts with
  | None => TypeError
  | Some l => first_script target l
  end.

Definition set_plutus_v2_script (tx : pycardano.Transaction)
    (scripts : option (list pycardano.ScriptType)) : pycardano.Transaction :=
  let w := pycardano.transaction_witness_set tx in
  {| pycardano.transaction_body := pycardano.transaction_body tx;
     pycardano.transaction_witness_set :=
       {| pycardano.redeemer := pycardano.redeemer w;
          pycardano.plutus_v2_script := scripts;
          pycardano.plutus_data := pycardano.plutus_data w |} |}.

(** The scripts that the loop over [resolved_reference_inputs +
    resolved_inputs] appends to [potential_scripts]. *)
Definition reference_scripts (utxos : list pycardano.UTxO) : list pycardano.ScriptType :=
  omap (fun u => pycardano.script (pycardano.output u)) utxos.

(** [potential_scripts = tx.transaction_witness_set.plutus_v2_script or []]
    followed by the appends. When the witness list is not empty,
    [potential_scripts] is that very list object and the appends update the
    transaction; when it is [None] or empty, [potential_scripts] is a new
    list, which nothing reads afterwards. *)
Definition extend_potential_scripts (tx : pycardano.Transaction)
    (utxos : list pycardano.UTxO) : pycardano.Transaction :=
  match pycardano.plutus_v2_script (pycardano.transaction_witness_set tx) with
  | Some (s :: l) => set_plutus_v2_script tx (Some ((s :: l) ++ reference_scripts utxos))
  | _ => tx
  end.

(** Lines 258 to 275: the datum of a spending input. *)
Definition resolve_datum (tx : pycardano.Transaction) (o : pycardano.TransactionOutput)
  : result pycardano.Datum :=
  match pycardano.datum o with
  | Some d => Ok d
  | None =>
      match pycardano.datum_hash o with
      | Some datum_h =>
          match List.find (fun d => bool_decide (pycardano.hash_of_datum d = datum_h))
                  (default [] (pycardano.plutus_data (pycardano.transaction_witness_set tx))) with
          | Some d => Ok d
          | None => Raise (MissingDatum_hash datum_h)
          end
      | None => Raise MissingDatum_none
      end
  end.

(** The body of the loop over [enumerate(resolved_inputs)]. It returns the
    invocation, if the input is script controlled, and the transaction as
    the body leaves it. *)
Definition spending_invocation (info : TxInfo)
    (resolved_inputs resolved_reference_inputs : list pycardano.UTxO)
    (i : nat) (spending_input : pycardano.UTxO) (tx : pycardano.Transaction)
  : result (option ScriptInvocation) * pycardano.Transaction :=
  match pycardano.payment_part (pycardano.address (pycardano.output spending_input)) with
  | Some (pycardano.ScriptHash payment_hash) =>
      match next_redeemer (pycardano.redeemer (pycardano.transaction_witness_set tx)) i SPEND with
      | Found spending_redeemer =>
          let tx' := extend_potential_scripts tx (resolved_reference_inputs ++ resolved_inputs) in
          match next_script (pycardano.plutus_v2_script (pycardano.transaction_witness_set tx'))
                  payment_hash with
          | Found spending_script =>
              match resolve_datum tx' (pycardano.output spending_input) with
              | Ok d =>
                  (Ok (Some {| script_type := spending_script;
                               datum := Some d;
                               redeemer := spending_redeemer;
                               script_context :=
                                 {| tx_info := info;
                                    purpose := Spending (to_tx_out_ref (pycardano.input spending_input)) |} |}),
                   tx')
              | Raise e => (Raise e, tx')
              end
          | _ => (Raise UnsupportedScript, tx')
          end
      | _ => (Raise (MissingRedeemer SPEND i), tx)
      end
  | _ => (Ok None, tx)
  end.

Fixpoint spending_loop (info : TxInfo)
    (resolved_inputs resolved_reference_inputs : list pycardano.UTxO)
    (i : nat) (rest : list pycardano.UTxO) (tx : pycardano.Transaction)
  : result (list ScriptInvocation) * pycardano.Transaction :=
  match rest with
  | [] => (Ok [], tx)
  | spending_input :: rest' =>
      match spending_invocation info resolved_inputs resolved_reference_inputs
              i spending_input tx with
      | (Ok inv, tx1) =>
          match spending_loop info resolved_inputs resolved_reference_inputs
                  (S i) rest' tx1 with
          | (Ok invs, tx2) => (Ok (option_list inv ++ invs), tx2)
          | (Raise e, tx2) => (Raise e, tx2)
          end
      | (Raise e, tx1) => (Raise e, tx1)
      end
  end.

(** The body of the loop over [enumerate(tx.transaction_body.mint or [])].
    Once the redeemer and the script are found, [minting_script.hash()] is
    evaluated, and then [ScriptInvocation] is called with three arguments
    for its four fields, which raises [TypeError]: no path returns. *)
Definition minting_invocation (info : TxInfo) (i : nat) (minting_script_hash : bytes)
    (tx : pycardano.Transaction) : result ScriptInvocation :=
  let w := pycardano.transaction_witness_set tx in
  match next_redeemer (pycardano.redeemer w) i MINT with
  | Found minting_redeemer =>
      match next_script (pycardano.plutus_v2_script w) minting_script_hash with
      | Found minting_script =>
          match pycardano.hash_method with
          | None => Raise PyAttributeError (* minting_script.hash() *)
          | Some _ => Raise PyTypeError (* ScriptInvocation(script, redeemer, context) *)
          end
      | StopIteration => Raise UnsupportedScript
      | TypeError => Raise PyTypeError
      end
  | StopIteration => Raise (MissingRedeemer MINT i)
  | TypeError => Raise PyTypeError
  end.

Fixpoint minting_loop (info : TxInfo) (i : nat) (policies : list bytes)
    (tx : pycardano.Transaction) : result (list ScriptInvocation) :=
  match policies with
  | [] => Ok []
  | minting_script_hash :: policies' =>
      inv ← minting_invocation info i minting_script_hash tx;
      invs ← minting_loop info (S i) policies' tx;
      Ok (inv :: invs)
  end.

(** The policies that [enumerate(tx.transaction_body.mint or [])] visits. *)
Definition mint_policies (tx : pycardano.Transaction) : list bytes :=
  map fst (default [] (pycardano.mint (pycardano.transaction_body tx))).

(** The resolver. Its second result is the transaction object as the call
    leaves it, whether it returns or raises. *)
Definition generate_script_contexts_resolved (tx : pycardano.Transaction)
    (resolved_inputs resolved_reference_inputs : list pycardano.UTxO)
  : result (list ScriptInvocation) * pycardano.Transaction :=
  match to_tx_info tx (map pycardano.output resolved_inputs)
          (map pycardano.output resolved_reference_inputs) with
  | Raise e => (Raise e, tx)
  | Ok info =>
      match spending_loop info resolved_inputs resolved_reference_inputs
              0 resolved_inputs tx with
      | (Raise e, tx1) => (Raise e, tx1)
      | (Ok spends, tx1) =>
          match minting_loop info 0 (mint_policies tx1) tx1 with
          | Raise e => (Raise e, tx1)
          | Ok mints => (Ok (spends ++ mints), tx1)
          end
      end
  end.

(** ** Vocabulary of the statements *)

(** [isinstance(u.output.address.payment_part, ScriptHash)] *)
Definition script_controlled (o : pycardano.TransactionOutput) : bool :=
  match pycardano.payment_part (pycardano.address o) with
  | Some (pycardano.ScriptHash _) => true
  | _ => false
  end.

(** The candidate pool as the design describes it: the scripts attached in
    the witness set, then every reference script carried by a resolved
    reference input or a resolved input. *)
Definition spec_candidate_pool (tx : pycardano.Transaction)
    (resolved_inputs resolved_reference_inputs : list pycardano.UTxO)
  : list pycardano.ScriptType :=
  default [] (pycardano.plutus_v2_script (pycardano.transaction_witness_set tx))
  ++ reference_scripts (resolved_reference_inputs ++ resolved_inputs).

(** [tx'] is [tx] up to the witness set's script list. *)
Definition same_but_scripts (tx tx' : pycardano.Transaction) : Prop :=
  pycardano.transaction_body tx' = pycardano.transaction_body tx
  /\ pycardano.redeemer (pycardano.transaction_witness_set tx')
     = pycardano.redeemer (pycardano.transaction_witness_set tx)
  /\ pycardano.plutus_data (pycardano.transaction_witness_set tx')
     = pycardano.plutus_data (pycardano.transaction_witness_set tx).

(** The spending loop gets to position [k] without raising, with the
    transaction then in state [tx_k]. *)
Definition reaches (info : TxInfo)
    (resolved_inputs resolved_reference_inputs : list pycardano.UTxO)
    (tx : pycardano.Transaction) (k : nat) (tx_k : pycardano.Transaction) : Prop :=
  exists invs,
    spending_loop info resolved_inputs resolved_reference_inputs
      0 (take k resolved_inputs) tx = (Ok invs, tx_k).

(** The purpose an invocation was built for. *)
Definition invocation_purpose (inv : ScriptInvocation) : ScriptPurpose :=
  purpose (script_context inv).

End Resolver.


(** ** Concrete transactions

    Small transactions on which the resolver is run. The hashes of
    [library] tag the hashed bytes with the kind of object hashed; the
    class of Plutus scripts has no [hash] method. [library_with_hash] is the
    same library with such a method. *)

Module Sample.

Definition library : pycardano.Library :=
  {| pycardano.plutus_script_hash := String.append "h2:";
     pycardano.script_hash := fun s =>
       match s with
       | pycardano.NativeScript c => String.append "h0:" c
       | pycardano.PlutusV1Script b => String.append "h1:" b
       | pycardano.PlutusV2Script b => String.append "h2:" b
       end;
     pycardano.hash_of_datum := fun d =>
       match d with pycardano.RawCBOR c => String.append "hd:" c end;
     pycardano.hash_of_redeemer := fun r =>
       match pycardano.data r with pycardano.RawCBOR c => String.append "hr:" c end;
     pycardano.id := fun _ => "txid"%string;
     pycardano.address_from_primitive := fun _ => None;
     pycardano.hash_method := None |}.

Definition library_with_hash : pycardano.Library :=
  {| pycardano.plutus_script_hash := String.append "h2:";
     pycardano.script_hash := @pycardano.script_hash library;
     pycardano.hash_of_datum := @pycardano.hash_of_datum library;
     pycardano.hash_of_redeemer := @pycardano.hash_of_redeemer library;
     pycardano.id := fun _ => "txid"%string;
     pycardano.address_from_primitive := fun _ => None;
     pycardano.hash_method := Some (String.append "h2:") |}.

Definition validator_a : pycardano.ScriptType := pycardano.PlutusV2Script "validator-a".
Definition validator_b : pycardano.ScriptType := pycardano.PlutusV2Script "validator-b".
Definition hash_a : bytes := "h2:validator-a".

Definition script_address (h : bytes) : pycardano.Address :=
  {| pycardano.payment_part := Some (pycardano.ScriptHash h);
     pycardano.staking_part := None;
     pycardano.network := pycardano.TESTNET |}.

Definition key_address : pycardano.Address :=
  {| pycardano.payment_part := Some (pycardano.VerificationKeyHash "alice");
     pycardano.staking_part := None;
     pycardano.network := pycardano.TESTNET |}.


Definition lovelace (n : Z) : pycardano.Value :=
  {| pycardano.coin := n; pycardano.multi_asset := Some [] |}.

Definition tx_output (a : pycardano.Address) (h : option bytes)
    (d : option pycardano.Datum) (s : option pycardano.ScriptType)
  : pycardano.TransactionOutput :=
  {| pycardano.address := a;
     pycardano.amount := lovelace 2000000;
     pycardano.datum_hash := h;
     pycardano.datum := d;
     pycardano.script := s |}.

Definition tx_input (n : Z) : pycardano.TransactionInput :=
  {| pycardano.transaction_id := "previous"; pycardano.input_index := n |}.

Definition utxo (n : Z) (o : pycardano.TransactionOutput) : pycardano.UTxO :=
  {| pycardano.input := tx_input n; pycardano.output := o |}.

Definition datum_d : pycardano.Datum := pycardano.RawCBOR "d".

Definition a_redeemer (t : RedeemerTag) (i : Z) (payload : bytes) : pycardano.Redeemer :=
  {| pycardano.tag := Some t;
     pycardano.index := i;
     pycardano.data := pycardano.RawCBOR payload;
     pycardano.ex_units := Some {| pycardano.mem := 0; pycardano.steps := 0 |} |}.

Definition a_body (ins : list pycardano.TransactionInput)
    (refs : option (list pycardano.TransactionInput))
    (outs : list pycardano.TransactionOutput)
    (certs : option (list pycardano.Certificate))
    (minted : option pycardano.MultiAsset) : pycardano.TransactionBody :=
  {| pycardano.inputs := ins;
     pycardano.outputs := outs;
     pycardano.fee := 170000;
     pycardano.ttl := None;
     pycardano.certificates := certs;
     pycardano.withdraws := None;
     pycardano.mint := minted;
     pycardano.validity_start := None;
     pycardano.required_signers := None;
     pycardano.reference_inputs := refs |}.

Definition a_transaction (body : pycardano.TransactionBody)
    (redeemers : option (list pycardano.Redeemer))
    (scripts : option (list pycardano.ScriptType))
    (data : option (list pycardano.Datum)) : pycardano.Transaction :=
  {| pycardano.transaction_body := body;
     pycardano.transaction_witness_set :=
       {| pycardano.redeemer := redeemers;
          pycardano.plutus_v2_script := scripts;
          pycardano.plutus_data := data |} |}.

(** An output locked by [validator_a] with an inline datum, and one with a
    datum hash only. *)
Definition locked_inline : pycardano.TransactionOutput :=
  tx_output (script_address hash_a) None (Some datum_d) None.
Definition locked_hashed : pycardano.TransactionOutput :=
  tx_output (script_address hash_a) (Some "hd:d"%string) None None.
Definition locked_bare : pycardano.TransactionOutput :=
  tx_output (script_address hash_a) None None None.

(** An output at a key address that carries [validator_a] as its
    reference script. *)
Definition carrier : pycardano.TransactionOutput :=
  tx_output key_address None None (Some validator_a).

(** The transactions. [spend_one] spends input 0, with input 1 as its
    reference input and one spend redeemer at index 0. *)
Definition spend_one (redeemers : list pycardano.Redeemer)
    (scripts : option (list pycardano.ScriptType))
    (data : option (list pycardano.Datum)) : pycardano.Transaction :=
  a_transaction (a_body [tx_input 0] (Some [tx_input 1]) [] None None)
    (Some redeemers) scripts data.

Definition spend_redeemer : pycardano.Redeemer := a_redeemer SPEND 0 "unlock".

(** No script is attached; the validator is the reference script of the
    reference input. *)
Definition tx_reference_only : pycardano.Transaction :=
  spend_one [spend_redeemer] None None.

(** Another script is attached besides. *)
Definition tx_attached_b : pycardano.Transaction :=
  spend_one [spend_redeemer] (Some [validator_b]) None.

(** The validator is attached. *)
Definition tx_attached_a : pycardano.Transaction :=
  spend_one [spend_redeemer] (Some [validator_a]) None.

Definition tx_attached_a_with_datum : pycardano.Transaction :=
  spend_one [spend_redeemer] (Some [validator_a])
    (Some [pycardano.RawCBOR "other"; datum_d]).



(** Input 0, held by a key, pays for the mint of one token of the policy
    of the validator. *)
Definition tx_mint : pycardano.Transaction :=
  a_transaction
    (a_body [tx_input 0] None [] None (Some [(hash_a, [("token"%string, 1)])]))
    (Some [a_redeemer MINT 0 "forge"]) (Some [validator_a]) None.


Definition tx_plain : pycardano.Transaction :=
  a_transaction
    (a_body [] None [tx_output key_address None None None] None None)
    (Some []) None None.

(** Input 0 is held by a key, input 1 by the validator. *)
Definition tx_two_inputs : pycardano.Transaction :=
  a_transaction (a_body [tx_input 0; tx_input 1] None [] None None)
    (Some [a_redeemer SPEND 1 "unlock"]) (Some [validator_a]) None.

Definition key_output : pycardano.TransactionOutput :=
  tx_output key_address None None None.

Definition both_datums : pycardano.TransactionOutput :=
  tx_output key_address (Some "hd:other"%string) (Some datum_d) None.

End Sample.


(** ** The rest of the module: the entry point over a builder and the evaluator *)

#[global] Instance TransactionInput_eq_dec : EqDecision pycardano.TransactionInput.
Proof. solve_decision. Defined.

(** [d[k]] on a dict in insertion order; [None] stands for [KeyError]. *)
Fixpoint dict_get {K V} `{EqDecision K} (k : K) (d : list (K * V)) : option V :=
  match d with
  | [] => None
  | (k', v) :: d' => if decide (k = k') then Some v else dict_get k d'
  end.

(** What the set of reference inputs of a builder can hold. *)
Inductive BuilderReference :=
| ReferenceUTxO (u : pycardano.UTxO)
| ReferenceInput (i : pycardano.TransactionInput).

(** The two fields of [pycardano.TransactionBuilder] that the entry point
    reads; [builder_reference_inputs] lists the set in the order in which
    [list(...)] iterates it. *)
Record TransactionBuilder := {
  builder_inputs : list pycardano.UTxO;
  builder_reference_inputs : list BuilderReference
}.

(** The exceptions of the entry point raised before the resolver is
    called. *)
Inductive EntryException :=
| AssertionError
    (* assert isinstance(utxo, pycardano.UTxO) *)
| KeyError (i : pycardano.TransactionInput)
    (* input_to_resolved_output[i] *)
| EntryTypeError.
    (* iteration over tx.transaction_body.reference_inputs, when None *)

(** An argument of the evaluated program: the datum and the redeemer data
    are data values, the last argument is the script context. *)
Inductive PlutusArgument :=
| DataArgument (d : pycardano.Datum)
| ContextArgument (c : ScriptContext).

Section Callers.
Context `{lib : pycardano.Library}.

(** The inner function [m] of [to_wdrl]. *)
Definition to_wdrl_m (k : bytes) : result StakingCredential :=
  a ← match pycardano.address_from_primitive k with
      | Some a => Ok a
      | None => Raise PyDecodeError
      end;
  to_staking_hash (pycardano.staking_part a).

(** The loop that fills [input_to_resolved_output]; [None] stands for the
    failed assertion. *)
Fixpoint input_to_resolved_output (utxos : list BuilderReference)
    (acc : list (pycardano.TransactionInput * pycardano.TransactionOutput))
  : option (list (pycardano.TransactionInput * pycardano.TransactionOutput)) :=
  match utxos with
  | [] => Some acc
  | ReferenceUTxO utxo :: utxos' =>
      input_to_resolved_output utxos'
        (dict_set (pycardano.input utxo) (pycardano.output utxo) acc)
  | ReferenceInput _ :: _ => None
  end.

(** [[UTxO(i, input_to_resolved_output[i]) for i in ins]] *)
Fixpoint resolve_inputs
    (table : list (pycardano.TransactionInput * pycardano.TransactionOutput))
    (ins : list pycardano.TransactionInput) : EntryException + list pycardano.UTxO :=
  match ins with
  | [] => inr []
  | i :: ins' =>
      match dict_get i table with
      | None => inl (KeyError i)
      | Some o =>
          match resolve_inputs table ins' with
          | inl e => inl e
          | inr us => inr ({| pycardano.input := i; pycardano.output := o |} :: us)
          end
      end
  end.

(** The utxos of the builder, in the order of the loop:
    [tx_builder.inputs + list(tx_builder.reference_inputs)]. *)
Definition builder_utxos (tx_builder : TransactionBuilder) : list BuilderReference :=
  map ReferenceUTxO (builder_inputs tx_builder) ++ builder_reference_inputs tx_builder.

(** [generate_script_contexts]; [build_full_fake_tx] is the method
    [_build_full_fake_tx] of the builder. The result is either the
    exception raised before the resolver is called, or what the resolver
    does on the transaction built. *)
Definition generate_script_contexts
    (build_full_fake_tx : TransactionBuilder -> pycardano.Transaction)
    (tx_builder : TransactionBuilder)
  : EntryException + (result (list ScriptInvocation) * pycardano.Transaction) :=
  let tx := build_full_fake_tx tx_builder in
  match input_to_resolved_output (builder_utxos tx_builder) [] with
  | None => inl AssertionError
  | Some table =>
      match resolve_inputs table (pycardano.inputs (pycardano.transaction_body tx)) with
      | inl e => inl e
      | inr resolved_inputs =>
          match pycardano.reference_inputs (pycardano.transaction_body tx) with
          | None => inl EntryTypeError
          | Some reference_inputs =>
              match resolve_inputs table reference_inputs with
              | inl e => inl e
              | inr resolved_reference_inputs =>
                  inr (generate_script_contexts_resolved tx
                         resolved_inputs resolved_reference_inputs)
              end
          end
      end
  end.

(** The datums from which [to_tx_info] builds its datum table. *)
Definition datum_sources (tx : pycardano.Transaction)
    (resolved_inputs resolved_reference_inputs : list pycardano.TransactionOutput)
  : list pycardano.Datum :=
  omap pycardano.datum
    (pycardano.outputs (pycardano.transaction_body tx)
     ++ resolved_inputs ++ resolved_reference_inputs)
  ++ default [] (pycardano.plutus_data (pycardano.transaction_witness_set tx)).

End Callers.

(** The evaluator. The functions of [pyaiken] and the encoders are taken
    as they come; an exception raised inside them is outside the model. *)
Section Evaluator.
Context {Outcome : Type}.
(** [bytes.hex()] *)
Variable hex : bytes -> string.
(** [pyaiken.uplc.unflat] *)
Variable unflat : string -> string.
(** [pyaiken.uplc.eval(program, args, steps, mem)], which returns
    [((suc, err), logs, (cpu, mem))] *)
Variable eval : string -> list string -> Z -> Z -> Outcome * list string * (Z * Z).
(** [PlutusData.to_cbor(a, 'hex')] *)
Variable to_cbor_hex : PlutusArgument -> string.

(** Lines 318 to 320: the arguments, the datum first when there is one. *)
Definition evaluation_arguments (script_invocation : ScriptInvocation)
  : list PlutusArgument :=
  let args := [DataArgument (pycardano.data (redeemer script_invocation));
               ContextArgument (script_context script_invocation)] in
  match datum script_invocation with
  | Some d => DataArgument d :: args
  | None => args
  end.

(** Lines 321 to 324 *)
Definition program_arguments (args : list PlutusArgument) : list string :=
  map (fun a => String.append "(con data #" (String.append (to_cbor_hex a) ")")) args.

(** [evaluate_script]. It returns the printed logs with the returned pair.
    A native script has no [hex] method, and a redeemer without execution
    units has no [steps]. *)
Definition evaluate_script (script_invocation : ScriptInvocation)
  : result (list string * (Outcome * (Z * Z))) :=
  match script_type script_invocation with
  | pycardano.NativeScript _ => Raise PyAttributeError
  | pycardano.PlutusV1Script b | pycardano.PlutusV2Script b =>
      let uplc_program := unflat (hex b) in
      let program_args := program_arguments (evaluation_arguments script_invocation) in
      match pycardano.ex_units (redeemer script_invocation) with
      | None => Raise PyAttributeError (* ex_units.steps *)
      | Some ex_units =>
          let execution_steps := pycardano.steps ex_units in
          let mem := pycardano.mem ex_units in
          match eval uplc_program program_args execution_steps mem with
          | (outcome, logs, cost) => Ok (logs, (outcome, cost))
          end
      end
  end.

End Evaluator.

(** More concrete data, for the entry point and the withdrawals. *)
Module Scenario.

(** A library that decodes the reward addresses ["stake:alice"] and
    ["stake:bob"], and one more name for the first. *)
Definition decoding_library : pycardano.Library :=
  {| pycardano.plutus_script_hash := String.append "h2:";
     pycardano.script_hash := @pycardano.script_hash Sample.library;
     pycardano.hash_of_datum := @pycardano.hash_of_datum Sample.library;
     pycardano.hash_of_redeemer := @pycardano.hash_of_redeemer Sample.library;
     pycardano.id := fun _ => "txid"%string;
     pycardano.address_from_primitive := fun k =>
       if decide (k = "stake:alice"%string) then
         Some {| pycardano.payment_part := None;
                 pycardano.staking_part := Some (pycardano.VerificationKeyHash "alice");
                 pycardano.network := pycardano.TESTNET |}
       else if decide (k = "stake:alice-again"%string) then
         Some {| pycardano.payment_part := None;
                 pycardano.staking_part := Some (pycardano.VerificationKeyHash "alice");
                 pycardano.network := pycardano.TESTNET |}
       else if decide (k = "stake:bob"%string) then
         Some {| pycardano.payment_part := None;
                 pycardano.staking_part := Some (pycardano.ScriptHash "bob");
                 pycardano.network := pycardano.TESTNET |}
       else None;
     pycardano.hash_method := None |}.

(** A builder that spends the output locked by the validator and refers to
    the output that carries it. *)
Definition builder : TransactionBuilder :=
  {| builder_inputs := [Sample.utxo 0 Sample.locked_inline];
     builder_reference_inputs := [ReferenceUTxO (Sample.utxo 1 Sample.carrier)] |}.

Definition builder_without_utxo : TransactionBuilder :=
  {| builder_inputs := [];
     builder_reference_inputs := [ReferenceUTxO (Sample.utxo 1 Sample.carrier)] |}.

Definition build (_ : TransactionBuilder) : pycardano.Transaction := Sample.tx_attached_a.

(** Two inputs locked by the validator, and its two redeemers. *)
Definition tx_two_locked : pycardano.Transaction :=
  Sample.a_transaction
    (Sample.a_body [Sample.tx_input 0; Sample.tx_input 1] (Some [Sample.tx_input 2]) [] None None)
    (Some [Sample.a_redeemer SPEND 0 "unlock"; Sample.a_redeemer SPEND 1 "unlock"])
    (Some [Sample.validator_b]) None.

Definition a_multi_asset : pycardano.MultiAsset :=
  [("policy"%string, [("token"%string, 1); ("other"%string, 7)])].

(** A policy whose asset holds no token. *)
Definition an_empty_asset : pycardano.MultiAsset := [("policy"%string, [])].

(** The mint of [Sample.tx_mint] with an asset that holds no token. *)
Definition tx_mint_no_token : pycardano.Transaction :=
  Sample.a_transaction
    (Sample.a_body [Sample.tx_input 0] None [] None (Some [(Sample.hash_a, [])]))
    (Some [Sample.a_redeemer MINT 0 "forge"]) (Some [Sample.validator_a]) None.

(** Input 0 is locked by the validator, which is also the policy of the
    mint. *)
Definition tx_spend_and_mint (minted : pycardano.Asset) : pycardano.Transaction :=
  Sample.a_transaction
    (Sample.a_body [Sample.tx_input 0] None [] None (Some [(Sample.hash_a, minted)]))
    (Some [Sample.a_redeemer SPEND 0 "unlock"; Sample.a_redeemer MINT 0 "forge"])
    (Some [Sample.validator_a]) None.



(** The key address on the other network. *)
Definition key_address_mainnet : pycardano.Address :=
  {| pycardano.payment_part := Some (pycardano.VerificationKeyHash "alice");
     pycardano.staking_part := None;
     pycardano.network := pycardano.MAINNET |}.

(** Outputs at the key address with a datum hash only, and with no datum. *)
Definition hashed_datum : pycardano.TransactionOutput :=
  Sample.tx_output Sample.key_address (Some "hd:d"%string) None None.
Definition no_datum : pycardano.TransactionOutput :=
  Sample.tx_output Sample.key_address None None None.

(** An output that holds a token. *)
Definition with_token : pycardano.TransactionOutput :=
  {| pycardano.address := Sample.key_address;
     pycardano.amount := {| pycardano.coin := 2000000;
                            pycardano.multi_asset := Some a_multi_asset |};
     pycardano.datum_hash := None;
     pycardano.datum := None;
     pycardano.script := None |}.

(** A redeemer built without execution units. *)
Definition redeemer_without_units : pycardano.Redeemer :=
  {| pycardano.tag := Some SPEND;
     pycardano.index := 0;
     pycardano.data := pycardano.RawCBOR "unlock";
     pycardano.ex_units := None |}.

(** Input 0 is spent with that redeemer. *)
Definition tx_without_units : pycardano.Transaction :=
  Sample.spend_one [redeemer_without_units] (Some [Sample.validator_a]) None.

End Scenario.


(** * Properties of the converters *)

Section ConverterFacts.
Context `{lib : pycardano.Library}.

(** ** Dict comprehensions *)

Lemma foldl_insert_notin {V} (items : list (bytes * V)) (m : gmap string V) (k : bytes) :
  k ∉ items.*1 ->
  foldl (fun m kv => <[kv.1 := kv.2]> m) m items !! k = m !! k.
Proof.
  revert m. induction items as [|[k' v'] items IH]; intros m Hk; simpl in *.
  - reflexivity.
  - apply not_elem_of_cons in Hk as [Hne Hk].
    rewrite IH by assumption. apply lookup_insert_ne. congruence.
Qed.

Lemma foldl_insert_in {V} (items : list (bytes * V)) (m : gmap string V) (k : bytes) (v : V) :
  NoDup items.*1 -> (k, v) ∈ items ->
  foldl (fun m kv => <[kv.1 := kv.2]> m) m items !! k = Some v.
Proof.
  revert m. induction items as [|[k' v'] items IH]; intros m Hnd Hin; simpl in *.
  - by apply elem_of_nil in Hin.
  - apply NoDup_cons in Hnd as [Hfresh Hnd].
    apply elem_of_cons in Hin as [Heq | Hin].
    + inversion Heq; subst k' v'.
      rewrite foldl_insert_notin by assumption. apply lookup_insert_eq.
    + by apply IH.
Qed.

Lemma dict_of_items_lookup {V} (items : list (bytes * V)) (k : bytes) (v : V) :
  NoDup items.*1 -> (k, v) ∈ items -> dict_of_items items !! k = Some v.
Proof. apply foldl_insert_in. Qed.

Lemma dict_of_items_lookup_None {V} (items : list (bytes * V)) (k : bytes) :
  k ∉ items.*1 -> dict_of_items items !! k = None.
Proof.
  intros Hk. unfold dict_of_items. rewrite foldl_insert_notin by assumption.
  apply lookup_empty.
Qed.

(** ** Values *)

Lemma multiasset_to_value_absent :
  multiasset_to_value None = Ok {[ b_empty := {[ b_empty := 0 ]} ]}.
Proof. reflexivity. Qed.

(** The policies of a multi-asset are converted when no asset holds a
    token, each to the empty dict; an asset with a token makes the
    comprehension raise. *)
Lemma policies_token_free (ma : pycardano.MultiAsset) :
  Forall (fun pa : bytes * pycardano.Asset => pa.2 = []) ma ->
  comprehension
    (fun pa : bytes * pycardano.Asset => tokens ← asset_to_tokens pa.2; Ok (pa.1, tokens))
    ma
  = Ok (map (fun pa : bytes * pycardano.Asset => (pa.1, (∅ : gmap string Z))) ma).
Proof.
  induction 1 as [|[policy asset] ma Hasset _ IH]; simpl in *; [done |].
  subst asset. simpl. by rewrite IH.
Qed.

Lemma policies_token (ma : pycardano.MultiAsset) :
  ~ Forall (fun pa : bytes * pycardano.Asset => pa.2 = []) ma ->
  comprehension
    (fun pa : bytes * pycardano.Asset => tokens ← asset_to_tokens pa.2; Ok (pa.1, tokens))
    ma
  = Raise PyTypeError.
Proof.
  induction ma as [|[policy [|token asset]] ma IH]; simpl; intros Hnot.
  - destruct Hnot. constructor.
  - rewrite IH; [done |]. intros Hma. apply Hnot. by constructor.
  - done.
Qed.

Lemma multiasset_to_value_token_free (ma : pycardano.MultiAsset) :
  token_free (Some ma) ->
  multiasset_to_value (Some ma)
  = Ok (dict_of_items
          (map (fun pa : bytes * pycardano.Asset => (pa.1, (∅ : gmap string Z))) ma)).
Proof. intros H. simpl. by rewrite policies_token_free. Qed.

Lemma multiasset_to_value_token (ma : option pycardano.MultiAsset) :
  ~ token_free ma -> multiasset_to_value ma = Raise PyTypeError.
Proof.
  destruct ma as [ma|]; simpl; intros H.
  - by rewrite policies_token.
  - destruct H. constructor.
Qed.

Lemma multiasset_to_value_returns (ma : option pycardano.MultiAsset) :
  (exists value, multiasset_to_value ma = Ok value) <-> token_free ma.
Proof.
  split.
  - intros [value H]. destruct (decide (token_free ma)) as [|Hnot]; [done |].
    rewrite (multiasset_to_value_token _ Hnot) in H. done.
  - intros H. destruct ma as [ma|]; [| by eexists].
    rewrite (multiasset_to_value_token_free _ H). eauto.
Qed.

Lemma value_to_value_returns (v : pycardano.Value) :
  (exists value, value_to_value v = Ok value) <-> token_free (pycardano.multi_asset v).
Proof.
  rewrite <- multiasset_to_value_returns. unfold value_to_value. split.
  - intros [value H]. destruct (multiasset_to_value _) as [ma|]; [eauto | done].
  - intros [ma ->]. simpl. eauto.
Qed.

Lemma value_to_value_token (v : pycardano.Value) :
  ~ token_free (pycardano.multi_asset v) -> value_to_value v = Raise PyTypeError.
Proof. intros H. unfold value_to_value. by rewrite multiasset_to_value_token. Qed.

Lemma value_to_value_native (v : pycardano.Value) (value : gmap string (gmap string Z)) :
  value_to_value v = Ok value ->
  value !! b_empty = Some {[ b_empty := pycardano.coin v ]}.
Proof.
  unfold value_to_value. destruct (multiasset_to_value _) as [ma|]; simpl; [| done].
  intros [= <-]. apply lookup_insert_eq.
Qed.

Lemma value_to_value_native_quantity (v : pycardano.Value)
    (value : gmap string (gmap string Z)) :
  value_to_value v = Ok value ->
  value !! b_empty ≫= (fun tokens => tokens !! b_empty) = Some (pycardano.coin v).
Proof.
  intros H. rewrite (value_to_value_native _ _ H). simpl. apply lookup_singleton_eq.
Qed.

(** A multi-asset that is present and converted is converted policy by
    policy, and nothing is added for the native currency. *)
Lemma multiasset_to_value_present_native (ma : pycardano.MultiAsset)
    (value : gmap string (gmap string Z)) :
  multiasset_to_value (Some ma) = Ok value ->
  b_empty ∉ ma.*1 -> value !! b_empty = None.
Proof.
  intros H Hk.
  assert (token_free (Some ma)) as Hfree by (apply multiasset_to_value_returns; eauto).
  rewrite (multiasset_to_value_token_free _ Hfree) in H. injection H as <-.
  apply dict_of_items_lookup_None. by rewrite <- list_fmap_compose.
Qed.

(** C3, at the inputs where the converter breaks what the claim says. The
    multi-asset [{policy: {}}], a policy whose asset holds no token, is
    converted by [multiasset_to_value] to [{policy: {}}], a value without
    the native-currency entry, although the same function returns
    [{b'': {b'': 0}}] for an absent multi-asset. And a multi-asset with a
    token is not converted at all: the comprehension over the asset unpacks
    an asset name, so that [multiasset_to_value], and [value_to_value] on a
    ledger amount with that multi-asset, raise [TypeError]. On an amount
    without token [value_to_value] does add the native entry, with the coin
    as its quantity. *)
Theorem multiasset_to_value_drops_native :
  multiasset_to_value (Some Scenario.an_empty_asset) = Ok {[ "policy"%string := ∅ ]}
  /\ ({[ "policy"%string := ∅ ]} : gmap string (gmap string Z)) !! b_empty = None
  /\ multiasset_to_value None = Ok {[ b_empty := {[ b_empty := 0 ]} ]}
  /\ multiasset_to_value (Some [("policy"%string, [("token"%string, 1)])])
     = Raise PyTypeError
  /\ value_to_value {| pycardano.coin := 5;
                       pycardano.multi_asset := Some [("policy"%string, [("token"%string, 1)])] |}
     = Raise PyTypeError
  /\ value_to_value {| pycardano.coin := 5;
                       pycardano.multi_asset := Some Scenario.an_empty_asset |}
     = Ok {[ b_empty := {[ b_empty := 5 ]}; "policy"%string := ∅ ]}.
Proof.
  split; [reflexivity |]. split.
  { apply (multiasset_to_value_present_native Scenario.an_empty_asset); [reflexivity |].
    simpl. intros Hin. apply list_elem_of_singleton in Hin. discriminate. }
  split; [apply multiasset_to_value_absent |].
  split; [reflexivity |]. split; reflexivity.
Qed.

(** ** Time ranges *)

(** C8. The time-range conversion maps an absent validity start to the
    lower bound (NegInf, exclusive) and a start [s] to (Finite s,
    inclusive); it maps an absent ttl to the upper bound (PosInf,
    exclusive) and a ttl [t] to (Finite t, inclusive). The flag of a bound
    is [TrueData] when the bound is inclusive. *)
Theorem to_valid_range_bounds :
  (forall ttl : option Z,
      lower_bound (to_valid_range None ttl)
      = mkLowerBoundPOSIXTime NegInfPOSIXTime FalseData)
  /\ (forall (s : Z) (ttl : option Z),
      lower_bound (to_valid_range (Some s) ttl)
      = mkLowerBoundPOSIXTime (FinitePOSIXTime s) TrueData)
  /\ (forall start : option Z,
      upper_bound (to_valid_range start None)
      = mkUpperBoundPOSIXTime PosInfPOSIXTime FalseData)
  /\ (forall (start : option Z) (t : Z),
      upper_bound (to_valid_range start (Some t))
      = mkUpperBoundPOSIXTime (FinitePOSIXTime t) TrueData).
Proof. repeat split. Qed.

Example to_valid_range_open :
  to_valid_range None None
  = {| lower_bound := mkLowerBoundPOSIXTime NegInfPOSIXTime FalseData;
       upper_bound := mkUpperBoundPOSIXTime PosInfPOSIXTime FalseData |}.
Proof. reflexivity. Qed.

Example to_valid_range_closed :
  to_valid_range (Some 1000) (Some 2000)
  = {| lower_bound := mkLowerBoundPOSIXTime (FinitePOSIXTime 1000) TrueData;
       upper_bound := mkUpperBoundPOSIXTime (FinitePOSIXTime 2000) TrueData |}.
Proof. reflexivity. Qed.

(** ** Outputs *)

Lemma to_tx_out_convertible (o : pycardano.TransactionOutput) :
  convertible o <-> exists t, to_tx_out o = Ok t.
Proof.
  unfold convertible, payment_supported, to_tx_out, to_address.
  rewrite <- value_to_value_returns. split.
  - intros [[c Hc] [value Hv]]. rewrite Hc. simpl. rewrite Hv. simpl. eauto.
  - intros [t Ht].
    destruct (to_payment_credential _) as [c|e]; simpl in Ht; [| discriminate].
    destruct (value_to_value _) as [value|e]; simpl in Ht; [| discriminate].
    split; eauto.
Qed.

(** C9. The datum of a converted output is [SomeOutputDatum] of the inline
    datum when the source output has one (whether or not it also has a
    datum hash), [SomeOutputDatumHash] of the datum hash when it has only
    that, and [NoOutputDatum] when it has neither. This holds of whatever
    [to_tx_out] returns, and it does return for every output whose address
    has a key hash or a script hash as payment part and whose amount holds
    no token. *)
Theorem to_tx_out_output_datum (o : pycardano.TransactionOutput) :
  let derived (t : TxOut) :=
    (forall d, pycardano.datum o = Some d -> tx_out_datum t = SomeOutputDatum d)
    /\ (forall h, pycardano.datum o = None -> pycardano.datum_hash o = Some h ->
          tx_out_datum t = SomeOutputDatumHash h)
    /\ (pycardano.datum o = None -> pycardano.datum_hash o = None ->
          tx_out_datum t = NoOutputDatum) in
  (forall t, to_tx_out o = Ok t -> derived t)
  /\ (convertible o -> exists t, to_tx_out o = Ok t /\ derived t).
Proof.
  intros derived.
  assert (forall t, to_tx_out o = Ok t -> derived t) as Hderived.
  { unfold to_tx_out. intros t Ht.
    destruct (to_address (pycardano.address o)) as [a|e]; simpl in Ht; [| discriminate].
    destruct (value_to_value _) as [value|e]; simpl in Ht; [| discriminate].
    injection Ht as <-. unfold derived. simpl. repeat split.
    - by intros d ->.
    - by intros h -> ->.
    - by intros -> ->. }
  split; [exact Hderived |].
  intros Ho. apply to_tx_out_convertible in Ho as [t Ht]. exists t. auto.
Qed.

End ConverterFacts.

(** The witness of C9: an output with both an inline datum and a datum
    hash, one with a datum hash only and one with neither are converted,
    each with its variant. *)
Lemma to_tx_out_output_datum_witness :
  (exists t, @to_tx_out Sample.library Sample.both_datums = Ok t
             /\ tx_out_datum t = SomeOutputDatum Sample.datum_d)
  /\ (exists t, @to_tx_out Sample.library Scenario.hashed_datum = Ok t
                /\ tx_out_datum t = SomeOutputDatumHash "hd:d")
  /\ (exists t, @to_tx_out Sample.library Scenario.no_datum = Ok t
                /\ tx_out_datum t = NoOutputDatum).
Proof.
  assert (forall o, pycardano.address o = Sample.key_address ->
                    pycardano.amount o = Sample.lovelace 2000000 ->
                    @convertible o) as Hconvertible.
  { intros o Ha Hv. split.
    - exists (PubKeyCredential "alice"). by rewrite Ha.
    - rewrite Hv. constructor. }
  split; [| split].
  - destruct (proj2 (@to_tx_out_output_datum Sample.library Sample.both_datums)
                (Hconvertible Sample.both_datums eq_refl eq_refl)) as (t & Ht & Hd & _).
    exists t. split; [exact Ht | exact (Hd _ eq_refl)].
  - destruct (proj2 (@to_tx_out_output_datum Sample.library Scenario.hashed_datum)
                (Hconvertible Scenario.hashed_datum eq_refl eq_refl)) as (t & Ht & _ & Hh & _).
    exists t. split; [exact Ht | exact (Hh _ eq_refl eq_refl)].
  - destruct (proj2 (@to_tx_out_output_datum Sample.library Scenario.no_datum)
                (Hconvertible Scenario.no_datum eq_refl eq_refl)) as (t & Ht & _ & _ & Hn).
    exists t. split; [exact Ht | exact (Hn eq_refl eq_refl)].
Defined.


(** * Properties of the transaction-info builder *)

Section BuilderFacts.
Context `{lib : pycardano.Library}.

Lemma comprehension_ok {A B} (f : A -> result B) (l : list A) :
  Forall (fun x => exists y, f x = Ok y) l -> exists ys, comprehension f l = Ok ys.
Proof.
  induction 1 as [|x l [y Hy] _ [ys Hys]]; simpl.
  - eauto.
  - rewrite Hy. simpl. rewrite Hys. simpl. eauto.
Qed.



Lemma to_tx_out_all_supported (l : list pycardano.TransactionOutput) :
  Forall convertible l -> exists ys, comprehension to_tx_out l = Ok ys.
Proof.
  intros H. apply comprehension_ok.
  eapply Forall_impl; [exact H |].
  intros o Ho. by apply to_tx_out_convertible.
Qed.

(** The certificates of a body that has some are never converted. *)
Lemma to_dcert_comprehension (c : pycardano.Certificate) (cs : list pycardano.Certificate) :
  comprehension to_dcert (c :: cs) = Raise CertificatesUnsupported.
Proof. reflexivity. Qed.


End BuilderFacts.




(** * Properties of the witness resolver *)

Section ResolverFacts.
Context `{lib : pycardano.Library}.

(** ** What a pass changes in the transaction *)

Lemma same_but_scripts_refl (tx : pycardano.Transaction) : same_but_scripts tx tx.
Proof. by repeat split. Qed.

Lemma same_but_scripts_trans (tx1 tx2 tx3 : pycardano.Transaction) :
  same_but_scripts tx1 tx2 -> same_but_scripts tx2 tx3 -> same_but_scripts tx1 tx3.
Proof.
  intros (Hb & Hr & Hd) (Hb' & Hr' & Hd'). repeat split; congruence.
Qed.

Lemma extend_potential_scripts_same (tx : pycardano.Transaction)
    (utxos : list pycardano.UTxO) :
  same_but_scripts tx (extend_potential_scripts tx utxos).
Proof.
  unfold extend_potential_scripts.
  destruct (pycardano.plutus_v2_script _) as [[|s l]|]; by repeat split.
Qed.

Lemma extend_potential_scripts_grow (tx : pycardano.Transaction)
    (utxos : list pycardano.UTxO) (l : list pycardano.ScriptType) :
  pycardano.plutus_v2_script (pycardano.transaction_witness_set tx) = Some l ->
  exists extra,
    pycardano.plutus_v2_script
      (pycardano.transaction_witness_set (extend_potential_scripts tx utxos))
    = Some (l ++ extra).
Proof.
  intros Hl. unfold extend_potential_scripts. rewrite Hl.
  destruct l as [|s l].
  - exists []. by rewrite Hl.
  - eexists. reflexivity.
Qed.

(** ** One spending input *)

(** What a returning iteration of the spending loop has done. *)
Lemma spending_invocation_Ok (info : TxInfo) (ri rri : list pycardano.UTxO) (i : nat)
    (u : pycardano.UTxO) (tx tx' : pycardano.Transaction) (o : option ScriptInvocation) :
  spending_invocation info ri rri i u tx = (Ok o, tx') ->
  if script_controlled (pycardano.output u) then
    exists h r s d,
      pycardano.payment_part (pycardano.address (pycardano.output u))
      = Some (pycardano.ScriptHash h)
      /\ next_redeemer (pycardano.redeemer (pycardano.transaction_witness_set tx)) i SPEND
         = Found r
      /\ tx' = extend_potential_scripts tx (rri ++ ri)
      /\ next_script (pycardano.plutus_v2_script (pycardano.transaction_witness_set tx')) h
         = Found s
      /\ resolve_datum tx' (pycardano.output u) = Ok d
      /\ o = Some {| script_type := s;
                     datum := Some d;
                     redeemer := r;
                     script_context :=
                       {| tx_info := info;
                          purpose := Spending (to_tx_out_ref (pycardano.input u)) |} |}
  else o = None /\ tx' = tx.
Proof.
  unfold spending_invocation, script_controlled.
  destruct (pycardano.payment_part _) as [[p|h|a b c]|];
    try (intros [= <- <-]; by split).
  destruct (next_redeemer _ i SPEND) as [r| |]; try discriminate.
  destruct (next_script _ h) as [s| |] eqn:Hs; try discriminate.
  destruct (resolve_datum _ _) as [d|e] eqn:Hd; try discriminate.
  intros [= <- <-]. exists h, r, s, d. by repeat split.
Qed.

Lemma spending_invocation_same (info : TxInfo) (ri rri : list pycardano.UTxO) (i : nat)
    (u : pycardano.UTxO) (tx tx' : pycardano.Transaction)
    (r : result (option ScriptInvocation)) :
  spending_invocation info ri rri i u tx = (r, tx') -> same_but_scripts tx tx'.
Proof.
  unfold spending_invocation. intros H.
  repeat case_match; simplify_eq;
    first [apply same_but_scripts_refl | apply extend_potential_scripts_same].
Qed.

Lemma spending_invocation_grow (info : TxInfo) (ri rri : list pycardano.UTxO) (i : nat)
    (u : pycardano.UTxO) (tx tx' : pycardano.Transaction)
    (r : result (option ScriptInvocation)) (l : list pycardano.ScriptType) :
  spending_invocation info ri rri i u tx = (r, tx') ->
  pycardano.plutus_v2_script (pycardano.transaction_witness_set tx) = Some l ->
  exists extra,
    pycardano.plutus_v2_script (pycardano.transaction_witness_set tx') = Some (l ++ extra).
Proof.
  unfold spending_invocation. intros H Hl.
  repeat case_match; simplify_eq;
    first [by apply extend_potential_scripts_grow
          | exists []; by rewrite app_nil_r].
Qed.

Lemma resolve_datum_same (tx tx' : pycardano.Transaction) (o : pycardano.TransactionOutput) :
  same_but_scripts tx tx' -> resolve_datum tx' o = resolve_datum tx o.
Proof. intros (_ & _ & Hd). unfold resolve_datum. by rewrite Hd. Qed.

(** ** The spending loop *)

Lemma spending_loop_same (info : TxInfo) (ri rri : list pycardano.UTxO)
    (l : list pycardano.UTxO) :
  forall i tx r tx',
    spending_loop info ri rri i l tx = (r, tx') -> same_but_scripts tx tx'.
Proof.
  induction l as [|u l IH]; simpl; intros i tx r tx' H.
  - injection H as <- <-. apply same_but_scripts_refl.
  - destruct (spending_invocation info ri rri i u tx) as [[o|e] tx1] eqn:E1.
    + apply spending_invocation_same in E1.
      destruct (spending_loop info ri rri (S i) l tx1) as [[invs|e] tx2] eqn:E2;
        apply IH in E2; injection H as <- <-;
        by apply same_but_scripts_trans with tx1.
    + injection H as <- <-. by apply spending_invocation_same in E1.
Qed.

Lemma spending_loop_grow (info : TxInfo) (ri rri : list pycardano.UTxO)
    (l : list pycardano.UTxO) :
  forall i tx r tx' scripts,
    spending_loop info ri rri i l tx = (r, tx') ->
    pycardano.plutus_v2_script (pycardano.transaction_witness_set tx) = Some scripts ->
    exists extra,
      pycardano.plutus_v2_script (pycardano.transaction_witness_set tx')
      = Some (scripts ++ extra).
Proof.
  induction l as [|u l IH]; simpl; intros i tx r tx' scripts H Hs.
  - injection H as <- <-. exists []. by rewrite app_nil_r.
  - destruct (spending_invocation info ri rri i u tx) as [[o|e] tx1] eqn:E1.
    + destruct (spending_invocation_grow _ _ _ _ _ _ _ _ _ E1 Hs) as [extra1 H1].
      destruct (spending_loop info ri rri (S i) l tx1) as [[invs|e] tx2] eqn:E2;
        destruct (IH _ _ _ _ _ E2 H1) as [extra2 H2]; injection H as <- <-;
        exists (extra1 ++ extra2); by rewrite app_assoc.
    + injection H as <- <-. by eapply spending_invocation_grow.
Qed.

Lemma spending_loop_app (info : TxInfo) (ri rri : list pycardano.UTxO)
    (l1 l2 : list pycardano.UTxO) :
  forall i tx,
    spending_loop info ri rri i (l1 ++ l2) tx =
    match spending_loop info ri rri i l1 tx with
    | (Ok invs1, tx1) =>
        match spending_loop info ri rri (i + length l1)%nat l2 tx1 with
        | (Ok invs2, tx2) => (Ok (invs1 ++ invs2), tx2)
        | (Raise e, tx2) => (Raise e, tx2)
        end
    | (Raise e, tx1) => (Raise e, tx1)
    end.
Proof.
  induction l1 as [|u l1 IH]; simpl; intros i tx.
  - rewrite Nat.add_0_r. by destruct (spending_loop info ri rri i l2 tx) as [[?|?] ?].
  - destruct (spending_invocation info ri rri i u tx) as [[o|e] tx1]; [| done].
    rewrite IH. replace (S i + length l1)%nat with (i + S (length l1))%nat by lia.
    destruct (spending_loop info ri rri (S i) l1 tx1) as [[invs1|e] tx2]; [| done].
    destruct (spending_loop info ri rri _ l2 tx2) as [[invs2|e] tx3]; [| done].
    by rewrite app_assoc.
Qed.

(** A returning loop has gone through every position. *)
Lemma spending_loop_at (info : TxInfo) (ri rri : list pycardano.UTxO)
    (l : list pycardano.UTxO) (k : nat) (u : pycardano.UTxO)
    (tx tx' : pycardano.Transaction) (invs : list ScriptInvocation) :
  l !! k = Some u ->
  spending_loop info ri rri 0 l tx = (Ok invs, tx') ->
  exists invs1 tx_k o tx_k' invs2,
    spending_loop info ri rri 0 (take k l) tx = (Ok invs1, tx_k)
    /\ spending_invocation info ri rri k u tx_k = (Ok o, tx_k')
    /\ spending_loop info ri rri (S k) (drop (S k) l) tx_k' = (Ok invs2, tx')
    /\ invs = invs1 ++ option_list o ++ invs2.
Proof.
  intros Hk H. rewrite <- (take_drop_middle l k u Hk) in H.
  rewrite spending_loop_app in H.
  destruct (spending_loop info ri rri 0 (take k l) tx) as [[invs1|e] tx_k] eqn:Hpre;
    [| discriminate].
  rewrite length_take_le in H by (apply lookup_lt_Some in Hk; lia).
  simpl in H.
  destruct (spending_invocation info ri rri k u tx_k) as [[o|e] tx_k'] eqn:Hstep;
    [| discriminate].
  destruct (spending_loop info ri rri (S k) (drop (S k) l) tx_k') as [[invs2|e] tx2]
    eqn:Hpost; [| discriminate].
  injection H as <- <-. by exists invs1, tx_k, o, tx_k', invs2.
Qed.

(** The exception of the first iteration that raises is the exception of
    the loop. *)
Lemma spending_loop_raise_at (info : TxInfo) (ri rri : list pycardano.UTxO)
    (l : list pycardano.UTxO) (k : nat) (u : pycardano.UTxO)
    (tx tx_k tx_k' : pycardano.Transaction) (invs1 : list ScriptInvocation)
    (e : Exception) :
  l !! k = Some u ->
  spending_loop info ri rri 0 (take k l) tx = (Ok invs1, tx_k) ->
  spending_invocation info ri rri k u tx_k = (Raise e, tx_k') ->
  spending_loop info ri rri 0 l tx = (Raise e, tx_k').
Proof.
  intros Hk Hpre Hstep. rewrite <- (take_drop_middle l k u Hk).
  rewrite spending_loop_app, Hpre.
  rewrite length_take_le by (apply lookup_lt_Some in Hk; lia).
  simpl. by rewrite Hstep.
Qed.

Lemma spending_loop_purposes (info : TxInfo) (ri rri : list pycardano.UTxO)
    (l : list pycardano.UTxO) :
  forall i tx invs tx',
    spending_loop info ri rri i l tx = (Ok invs, tx') ->
    map invocation_purpose invs
    = map (fun u => Spending (to_tx_out_ref (pycardano.input u)))
        (List.filter (fun u => script_controlled (pycardano.output u)) l).
Proof.
  induction l as [|u l IH]; simpl; intros i tx invs tx' H.
  - by injection H as <- <-.
  - destruct (spending_invocation info ri rri i u tx) as [[o|e] tx1] eqn:E1;
      [| discriminate].
    destruct (spending_loop info ri rri (S i) l tx1) as [[invs2|e] tx2] eqn:E2;
      [| discriminate].
    injection H as <- <-. apply IH in E2. apply spending_invocation_Ok in E1.
    destruct (script_controlled (pycardano.output u)).
    + destruct E1 as (h & r & s & d & _ & _ & _ & _ & _ & ->). simpl.
      by rewrite E2.
    + destruct E1 as [-> _]. simpl. exact E2.
Qed.

(** ** The minting loop *)

Lemma minting_invocation_raises (info : TxInfo) (i : nat) (policy : bytes)
    (tx : pycardano.Transaction) :
  exists e, minting_invocation info i policy tx = Raise e.
Proof. unfold minting_invocation. repeat case_match; eauto. Qed.

Lemma minting_loop_Ok (info : TxInfo) (i : nat) (policies : list bytes)
    (tx : pycardano.Transaction) (mints : list ScriptInvocation) :
  minting_loop info i policies tx = Ok mints -> policies = [] /\ mints = [].
Proof.
  destruct policies as [|p policies]; simpl.
  - by intros [= <-].
  - destruct (minting_invocation_raises info i p tx) as [e ->]. discriminate.
Qed.

Lemma mint_policies_same (tx tx' : pycardano.Transaction) :
  same_but_scripts tx tx' -> mint_policies tx' = mint_policies tx.
Proof. intros (Hb & _). unfold mint_policies. by rewrite Hb. Qed.

(** ** The resolver as a whole *)

Lemma generate_Ok (tx tx' : pycardano.Transaction) (ri rri : list pycardano.UTxO)
    (invs : list ScriptInvocation) :
  generate_script_contexts_resolved tx ri rri = (Ok invs, tx') ->
  exists info,
    to_tx_info tx (map pycardano.output ri) (map pycardano.output rri) = Ok info
    /\ spending_loop info ri rri 0 ri tx = (Ok invs, tx')
    /\ mint_policies tx = [].
Proof.
  unfold generate_script_contexts_resolved.
  destruct (to_tx_info _ _ _) as [info|e]; [| discriminate].
  destruct (spending_loop info ri rri 0 ri tx) as [[spends|e] tx1] eqn:Hloop;
    [| discriminate].
  destruct (minting_loop info 0 (mint_policies tx1) tx1) as [mints|e] eqn:Hmint;
    [| discriminate].
  intros [= <- <-]. apply minting_loop_Ok in Hmint as [Hp ->].
  exists info. rewrite app_nil_r. split; [reflexivity |]. split; [exact Hloop |].
  rewrite <- (mint_policies_same tx tx1); [exact Hp |].
  by apply spending_loop_same in Hloop.
Qed.

Lemma generate_raise_at (tx tx_k tx_k' : pycardano.Transaction)
    (ri rri : list pycardano.UTxO) (info : TxInfo) (k : nat) (u : pycardano.UTxO)
    (e : Exception) :
  to_tx_info tx (map pycardano.output ri) (map pycardano.output rri) = Ok info ->
  ri !! k = Some u ->
  reaches info ri rri tx k tx_k ->
  spending_invocation info ri rri k u tx_k = (Raise e, tx_k') ->
  generate_script_contexts_resolved tx ri rri = (Raise e, tx_k').
Proof.
  intros Hinfo Hk [invs1 Hpre] Hstep. unfold generate_script_contexts_resolved.
  rewrite Hinfo. by rewrite (spending_loop_raise_at _ _ _ _ _ _ _ _ _ _ _ Hk Hpre Hstep).
Qed.

(** A returning pass has resolved every script-controlled input. *)
Lemma generate_Ok_at (tx tx' : pycardano.Transaction) (ri rri : list pycardano.UTxO)
    (invs : list ScriptInvocation) (k : nat) (u : pycardano.UTxO) :
  generate_script_contexts_resolved tx ri rri = (Ok invs, tx') ->
  ri !! k = Some u ->
  exists info tx_k o tx_k',
    same_but_scripts tx tx_k
    /\ spending_invocation info ri rri k u tx_k = (Ok o, tx_k')
    /\ forall inv, o = Some inv -> inv ∈ invs.
Proof.
  intros H Hk. apply generate_Ok in H as (info & _ & Hloop & _).
  destruct (spending_loop_at _ _ _ _ _ _ _ _ _ Hk Hloop)
    as (invs1 & tx_k & o & tx_k' & invs2 & Hpre & Hstep & _ & ->).
  exists info, tx_k, o, tx_k'. split; [by apply spending_loop_same in Hpre |].
  split; [exact Hstep |].
  intros inv ->. simpl. apply elem_of_app. right. apply elem_of_cons. by left.
Qed.

End ResolverFacts.


(** * The claims on the resolver *)

Section Searches.
Context `{lib : pycardano.Library}.

(** [next] over a filtered generator returns the first element that
    passes the filter. *)
Lemma find_first {A} (f : A -> bool) (l : list A) (x : A) :
  List.find f l = Some x ->
  exists before after,
    l = before ++ x :: after /\ f x = true /\ Forall (fun y => f y = false) before.
Proof.
  induction l as [|y l IH]; simpl; [discriminate |].
  destruct (f y) eqn:Hy.
  - intros [= ->]. exists [], l. by repeat split.
  - intros H. destruct (IH H) as (before & after & -> & Hx & Hbefore).
    exists (y :: before), after. repeat split; [done |]. by constructor.
Qed.

Lemma find_none_Forall {A} (f : A -> bool) (l : list A) :
  Forall (fun y => f y = false) l -> List.find f l = None.
Proof. induction 1 as [|y l Hy _ IH]; simpl; [done |]. by rewrite Hy. Qed.

Lemma find_some_elem {A} (f : A -> bool) (l : list A) (x : A) :
  x ∈ l -> f x = true -> exists y, List.find f l = Some y.
Proof.
  induction 1 as [x l | x y l _ IH]; simpl; intros Hx.
  - rewrite Hx. eauto.
  - destruct (f y); eauto.
Qed.

Lemma redeemer_matches_spec (i : nat) (t : RedeemerTag) (r : pycardano.Redeemer) :
  redeemer_matches i t r = true
  <-> pycardano.index r = Z.of_nat i /\ pycardano.tag r = Some t.
Proof.
  unfold redeemer_matches. rewrite andb_true_iff, !bool_decide_eq_true. tauto.
Qed.

(** A script of the list with the wanted hash stops the search: the
    search does not run to the end of the list. *)
Lemma first_script_elem (target : bytes) (scripts extra : list pycardano.ScriptType)
    (s : pycardano.ScriptType) (b : bytes) :
  s ∈ scripts -> as_plutus_v2 s = Some b -> pycardano.plutus_script_hash b = target ->
  first_script target (scripts ++ extra) <> StopIteration.
Proof.
  induction 1 as [s scripts | s s' scripts _ IH]; simpl; intros Hb Hh.
  - rewrite Hb. by rewrite decide_True.
  - destruct (as_plutus_v2 s'); [| done]. case_decide; [done |]. by apply IH.
Qed.

Lemma resolve_datum_Ok (tx : pycardano.Transaction) (o : pycardano.TransactionOutput)
    (d : pycardano.Datum) :
  resolve_datum tx o = Ok d ->
  pycardano.datum o = Some d
  \/ (pycardano.datum o = None
      /\ exists datum_h before after,
           pycardano.datum_hash o = Some datum_h
           /\ default [] (pycardano.plutus_data (pycardano.transaction_witness_set tx))
              = before ++ d :: after
           /\ pycardano.hash_of_datum d = datum_h
           /\ Forall (fun d' => pycardano.hash_of_datum d' <> datum_h) before).
Proof.
  unfold resolve_datum. destruct (pycardano.datum o) as [d0|].
  - intros [= ->]. by left.
  - destruct (pycardano.datum_hash o) as [datum_h|]; [| discriminate].
    destruct (List.find _ _) as [d0|] eqn:Hfind; [| discriminate].
    intros [= ->]. right. split; [done |].
    apply find_first in Hfind as (before & after & Hl & Hd & Hbefore).
    exists datum_h, before, after. repeat split; try done.
    + by apply bool_decide_eq_true in Hd.
    + eapply Forall_impl; [exact Hbefore |]. intros d'. apply bool_decide_eq_false.
Qed.

Lemma resolve_datum_unmatched (tx : pycardano.Transaction)
    (o : pycardano.TransactionOutput) (datum_h : bytes) :
  pycardano.datum o = None -> pycardano.datum_hash o = Some datum_h ->
  Forall (fun d => pycardano.hash_of_datum d <> datum_h)
    (default [] (pycardano.plutus_data (pycardano.transaction_witness_set tx))) ->
  resolve_datum tx o = Raise (MissingDatum_hash datum_h).
Proof.
  intros Hd Hh Hall. unfold resolve_datum. rewrite Hd, Hh.
  rewrite find_none_Forall; [done |].
  eapply Forall_impl; [exact Hall |]. intros d'. apply bool_decide_eq_false.
Qed.

Lemma resolve_datum_bare (tx : pycardano.Transaction) (o : pycardano.TransactionOutput) :
  pycardano.datum o = None -> pycardano.datum_hash o = None ->
  resolve_datum tx o = Raise MissingDatum_none.
Proof. intros Hd Hh. unfold resolve_datum. by rewrite Hd, Hh. Qed.

Lemma script_controlled_hash (o : pycardano.TransactionOutput) (h : bytes) :
  pycardano.payment_part (pycardano.address o) = Some (pycardano.ScriptHash h) ->
  script_controlled o = true.
Proof. intros H. unfold script_controlled. by rewrite H. Qed.

(** The iteration for an input whose redeemer and script are found raises
    what the datum resolution raises. *)
Lemma spending_invocation_datum_raise (info : TxInfo) (ri rri : list pycardano.UTxO)
    (i : nat) (u : pycardano.UTxO) (tx : pycardano.Transaction) (h : bytes)
    (r : pycardano.Redeemer) (s : pycardano.ScriptType) (e : Exception) :
  let tx' := extend_potential_scripts tx (rri ++ ri) in
  pycardano.payment_part (pycardano.address (pycardano.output u))
  = Some (pycardano.ScriptHash h) ->
  next_redeemer (pycardano.redeemer (pycardano.transaction_witness_set tx)) i SPEND
  = Found r ->
  next_script (pycardano.plutus_v2_script (pycardano.transaction_witness_set tx')) h
  = Found s ->
  resolve_datum tx' (pycardano.output u) = Raise e ->
  spending_invocation info ri rri i u tx = (Raise e, tx').
Proof.
  intros tx' Hp Hr Hs Hd. unfold spending_invocation. rewrite Hp, Hr.
  fold tx'. by rewrite Hs, Hd.
Qed.



End Searches.


Section Resolution.
Context `{lib : pycardano.Library}.


Lemma find_first_intro {A} (f : A -> bool) (before after : list A) (x : A) :
  f x = true -> Forall (fun y => f y = false) before ->
  List.find f (before ++ x :: after) = Some x.
Proof.
  intros Hx. induction 1 as [|y before Hy _ IH]; simpl.
  - by rewrite Hx.
  - by rewrite Hy.
Qed.

(** The iteration for an input whose redeemer, script and datum are found
    appends the invocation made of them. *)
Lemma spending_invocation_resolved (info : TxInfo) (ri rri : list pycardano.UTxO)
    (i : nat) (u : pycardano.UTxO) (tx : pycardano.Transaction) (h : bytes)
    (r : pycardano.Redeemer) (s : pycardano.ScriptType) (d : pycardano.Datum) :
  let tx' := extend_potential_scripts tx (rri ++ ri) in
  pycardano.payment_part (pycardano.address (pycardano.output u))
  = Some (pycardano.ScriptHash h) ->
  next_redeemer (pycardano.redeemer (pycardano.transaction_witness_set tx)) i SPEND
  = Found r ->
  next_script (pycardano.plutus_v2_script (pycardano.transaction_witness_set tx')) h
  = Found s ->
  resolve_datum tx' (pycardano.output u) = Ok d ->
  spending_invocation info ri rri i u tx
  = (Ok (Some {| script_type := s;
                 datum := Some d;
                 redeemer := r;
                 script_context :=
                   {| tx_info := info;
                      purpose := Spending (to_tx_out_ref (pycardano.input u)) |} |}),
     tx').
Proof.
  intros tx' Hp Hr Hs Hd. unfold spending_invocation. rewrite Hp, Hr.
  fold tx'. by rewrite Hs, Hd.
Qed.

(** C6. Take a script-controlled resolved input at position [k], and a
    pass that gets to it and finds its redeemer and its script. If the
    resolved output carries an inline datum, the invocation built for the
    input has that datum. Otherwise, if the output carries a datum hash,
    the invocation has the first datum attached to the transaction whose
    hash it is; when no attached datum has that hash the pass raises the
    missing-datum error for the hash. If the output carries neither, the
    pass raises the error for a missing datum. In the two failing cases no
    pass returns a list, and every list that a pass returns holds, for the
    input, an invocation with the datum so resolved. *)
Theorem spending_datum_resolution (tx : pycardano.Transaction)
    (ri rri : list pycardano.UTxO) (k : nat) (u : pycardano.UTxO) (h : bytes) :
  ri !! k = Some u ->
  pycardano.payment_part (pycardano.address (pycardano.output u))
  = Some (pycardano.ScriptHash h) ->
  let o := pycardano.output u in
  let attached :=
    default [] (pycardano.plutus_data (pycardano.transaction_witness_set tx)) in
  let found (d : pycardano.Datum) :=
    pycardano.datum o = None
    /\ exists datum_h before after,
         pycardano.datum_hash o = Some datum_h
         /\ attached = before ++ d :: after
         /\ pycardano.hash_of_datum d = datum_h
         /\ Forall (fun d' => pycardano.hash_of_datum d' <> datum_h) before in
  let at_input (outcome : result pycardano.Datum) :=
    forall info tx_k r s,
      to_tx_info tx (map pycardano.output ri) (map pycardano.output rri) = Ok info ->
      reaches info ri rri tx k tx_k ->
      next_redeemer (pycardano.redeemer (pycardano.transaction_witness_set tx))
        k SPEND = Found r ->
      next_script
        (pycardano.plutus_v2_script
           (pycardano.transaction_witness_set
              (extend_potential_scripts tx_k (rri ++ ri)))) h = Found s ->
      match outcome with
      | Ok d =>
          spending_invocation info ri rri k u tx_k
          = (Ok (Some {| script_type := s;
                         datum := Some d;
                         redeemer := r;
                         script_context :=
                           {| tx_info := info;
                              purpose := Spending (to_tx_out_ref (pycardano.input u)) |} |}),
             extend_potential_scripts tx_k (rri ++ ri))
      | Raise e =>
          generate_script_contexts_resolved tx ri rri
          = (Raise e, extend_potential_scripts tx_k (rri ++ ri))
      end in
  let never_returns :=
    forall invs tx', generate_script_contexts_resolved tx ri rri <> (Ok invs, tx') in
  (forall d, pycardano.datum o = Some d -> at_input (Ok d))
  /\ (forall d, found d -> at_input (Ok d))
  /\ (forall datum_h,
         pycardano.datum o = None -> pycardano.datum_hash o = Some datum_h ->
         Forall (fun d => pycardano.hash_of_datum d <> datum_h) attached ->
         at_input (Raise (MissingDatum_hash datum_h)) /\ never_returns)
  /\ (pycardano.datum o = None -> pycardano.datum_hash o = None ->
      at_input (Raise MissingDatum_none) /\ never_returns)
  /\ (forall invs tx',
         generate_script_contexts_resolved tx ri rri = (Ok invs, tx') ->
         exists inv d,
           inv ∈ invs
           /\ invocation_purpose inv = Spending (to_tx_out_ref (pycardano.input u))
           /\ datum inv = Some d
           /\ (pycardano.datum o = Some d \/ found d)).
Proof.
  intros Hk Hp o attached found at_input never_returns.
  assert (forall invs tx',
             generate_script_contexts_resolved tx ri rri = (Ok invs, tx') ->
             exists inv d,
               inv ∈ invs
               /\ invocation_purpose inv = Spending (to_tx_out_ref (pycardano.input u))
               /\ datum inv = Some d
               /\ resolve_datum tx o = Ok d) as Hfound.
  { intros invs tx' H.
    destruct (generate_Ok_at _ _ _ _ _ _ _ H Hk)
      as (info & tx_k & o' & tx_k' & Hsame & Hstep & Hin).
    pose proof (spending_invocation_same _ _ _ _ _ _ _ _ Hstep) as Hsame'.
    apply spending_invocation_Ok in Hstep.
    rewrite (script_controlled_hash _ _ Hp) in Hstep.
    destruct Hstep as (h' & r & s & d & _ & _ & _ & _ & Hd & Ho).
    eexists. exists d. split; [apply Hin, Ho |]. repeat split.
    rewrite <- Hd. symmetry. apply resolve_datum_same.
    by apply same_but_scripts_trans with tx_k. }
  assert (forall outcome, resolve_datum tx o = outcome -> at_input outcome) as Hat.
  { intros outcome Hout info tx_k r s Hinfo Hreach Hr Hs.
    assert (same_but_scripts tx tx_k) as Hsame.
    { destruct Hreach as [invs1 Hpre]. by apply spending_loop_same in Hpre. }
    assert (resolve_datum (extend_potential_scripts tx_k (rri ++ ri)) o = outcome)
      as Hout'.
    { rewrite <- Hout. apply resolve_datum_same.
      apply same_but_scripts_trans with tx_k; [done |].
      apply extend_potential_scripts_same. }
    assert (next_redeemer (pycardano.redeemer (pycardano.transaction_witness_set tx_k))
              k SPEND = Found r) as Hr'.
    { destruct Hsame as (_ & -> & _). exact Hr. }
    destruct outcome as [d|e].
    - by apply (spending_invocation_resolved _ _ _ _ _ _ h).
    - apply (generate_raise_at _ _ _ _ _ _ _ _ _ Hinfo Hk Hreach).
      by apply (spending_invocation_datum_raise _ _ _ _ _ _ h r s). }
  assert (forall e, resolve_datum tx o = Raise e -> never_returns) as Hnever.
  { intros e He invs tx' H. destruct (Hfound _ _ H) as (_ & d & _ & _ & _ & Hd).
    congruence. }
  assert (forall d, found d -> resolve_datum tx o = Ok d) as Hhash.
  { intros d (Hnone & datum_h & before & after & Hh & Hatt & Hd & Hbefore).
    unfold resolve_datum. fold o. rewrite Hnone, Hh. fold attached. rewrite Hatt.
    rewrite (find_first_intro _ before after d); [done | by apply bool_decide_eq_true |].
    eapply Forall_impl; [exact Hbefore |]. intros d'. apply bool_decide_eq_false. }
  split; [| split; [| split; [| split]]].
  - intros d Hd. apply Hat. unfold resolve_datum. fold o. by rewrite Hd.
  - intros d Hd. by apply Hat, Hhash.
  - intros datum_h Hd Hh Hall.
    pose proof (resolve_datum_unmatched tx o datum_h Hd Hh Hall) as Hraise.
    split; [by apply Hat | by apply (Hnever _ Hraise)].
  - intros Hd Hh. pose proof (resolve_datum_bare tx o Hd Hh) as Hraise.
    split; [by apply Hat | by apply (Hnever _ Hraise)].
  - intros invs tx' H. destruct (Hfound _ _ H) as (inv & d & Hin & Hpurpose & Hd & Hres).
    exists inv, d. repeat split; try done.
    apply resolve_datum_Ok in Hres as [Hinline | Hres]; [by left | by right].
Qed.

Lemma zip_input_output (ri : list pycardano.UTxO) :
  zip (map pycardano.input ri) (map pycardano.output ri)
  = map (fun u => (pycardano.input u, pycardano.output u)) ri.
Proof. induction ri as [|u ri IH]; simpl; [done |]. by rewrite IH. Qed.

Lemma map_filter_map {A B C} (g : A -> B) (p : B -> bool) (f : B -> C) (l : list A) :
  map f (List.filter p (map g l))
  = map (fun x => f (g x)) (List.filter (fun x => p (g x)) l).
Proof.
  induction l as [|x l IH]; simpl; [done |].
  destruct (p (g x)); simpl; by rewrite IH.
Qed.

(** The purposes of the invocations of a returned list are the spending
    purposes of the script-controlled inputs, in the order of the body's
    input list (an input whose payment part is not a script hash has no
    invocation), and nothing follows them: the mint of the transaction is
    empty, since with a policy in the mint the pass raises. The resolved
    inputs are aligned with the inputs of the body. *)
Lemma invocations_in_order (tx tx' : pycardano.Transaction)
    (ri rri : list pycardano.UTxO) (invs : list ScriptInvocation) :
  map pycardano.input ri = pycardano.inputs (pycardano.transaction_body tx) ->
  generate_script_contexts_resolved tx ri rri = (Ok invs, tx') ->
  mint_policies tx = []
  /\ map invocation_purpose invs
     = map (fun io => Spending (to_tx_out_ref io.1))
         (List.filter (fun io => script_controlled io.2)
            (zip (pycardano.inputs (pycardano.transaction_body tx))
               (map pycardano.output ri))).
Proof.
  intros Haligned H. apply generate_Ok in H as (info & _ & Hloop & Hmint).
  split; [exact Hmint |].
  rewrite <- Haligned, zip_input_output.
  rewrite (map_filter_map (fun u => (pycardano.input u, pycardano.output u))
             (fun io => script_controlled io.2)
             (fun io => Spending (to_tx_out_ref io.1))).
  simpl. by apply spending_loop_purposes in Hloop.
Qed.

(** The minting path in general: with one policy [P] in the mint, a mint
    redeemer at index 0 and an attached script of hash [P], the pass returns
    no list.
    Once the transaction info is built and the spending inputs are
    resolved, the redeemer and the script are found and the construction of
    the invocation raises: [AttributeError] for the call of [hash] on the
    script, or [TypeError] for the call of [ScriptInvocation] with three
    arguments (or for a native script met before the matching one). *)
Lemma minting_invocation_never_built (tx : pycardano.Transaction)
    (ri rri : list pycardano.UTxO) (P : bytes) (assets : pycardano.Asset)
    (rs : list pycardano.Redeemer) (r : pycardano.Redeemer)
    (scripts : list pycardano.ScriptType) (s : pycardano.ScriptType) (b : bytes) :
  pycardano.mint (pycardano.transaction_body tx) = Some [(P, assets)] ->
  pycardano.redeemer (pycardano.transaction_witness_set tx) = Some rs ->
  r ∈ rs -> pycardano.index r = 0 -> pycardano.tag r = Some MINT ->
  pycardano.plutus_v2_script (pycardano.transaction_witness_set tx) = Some scripts ->
  s ∈ scripts -> as_plutus_v2 s = Some b -> pycardano.plutus_script_hash b = P ->
  (forall invs tx', generate_script_contexts_resolved tx ri rri <> (Ok invs, tx'))
  /\ (forall info spends tx1,
         to_tx_info tx (map pycardano.output ri) (map pycardano.output rri) = Ok info ->
         spending_loop info ri rri 0 ri tx = (Ok spends, tx1) ->
         generate_script_contexts_resolved tx ri rri = (Raise PyTypeError, tx1)
         \/ generate_script_contexts_resolved tx ri rri = (Raise PyAttributeError, tx1)).
Proof.
  intros Hmint Hrs Hr Hindex Htag Hscripts Hs Hb Hhash. split.
  - intros invs tx' H. apply generate_Ok in H as (_ & _ & _ & Hnil).
    unfold mint_policies in Hnil. by rewrite Hmint in Hnil.
  - intros info spends tx1 Hinfo Hloop. unfold generate_script_contexts_resolved.
    rewrite Hinfo, Hloop.
    pose proof (spending_loop_same _ _ _ _ _ _ _ _ Hloop) as Hsame.
    rewrite (mint_policies_same _ _ Hsame). unfold mint_policies. rewrite Hmint.
    simpl. unfold minting_invocation.
    destruct Hsame as (_ & -> & _). rewrite Hrs. simpl.
    destruct (find_some_elem (redeemer_matches 0 MINT) rs r Hr) as [r' ->].
    { by apply redeemer_matches_spec. }
    destruct (spending_loop_grow _ _ _ _ _ _ _ _ _ Hloop Hscripts) as [extra ->].
    simpl.
    pose proof (first_script_elem P scripts extra s b Hs Hb Hhash) as Hstop.
    destruct (first_script P (scripts ++ extra)) as [s'| |]; [| done | by left].
    destruct pycardano.hash_method; simpl; [by left | by right].
Qed.

(** When a script is attached, the list that the search reads after the
    appends is the candidate pool of the design. *)
Lemma extend_potential_scripts_pool (tx : pycardano.Transaction)
    (ri rri : list pycardano.UTxO) (s : pycardano.ScriptType)
    (l : list pycardano.ScriptType) :
  pycardano.plutus_v2_script (pycardano.transaction_witness_set tx) = Some (s :: l) ->
  pycardano.plutus_v2_script
    (pycardano.transaction_witness_set (extend_potential_scripts tx (rri ++ ri)))
  = Some (spec_candidate_pool tx ri rri).
Proof.
  intros H. unfold extend_potential_scripts, spec_candidate_pool. by rewrite H.
Qed.

(** When no script is attached, a script-controlled input is never
    resolved, whatever the reference scripts: its iteration raises, for
    its redeemer or for its script. *)
Lemma spending_invocation_nothing_attached (info : TxInfo)
    (ri rri : list pycardano.UTxO) (i : nat) (u : pycardano.UTxO)
    (tx : pycardano.Transaction) (h : bytes) :
  pycardano.payment_part (pycardano.address (pycardano.output u))
  = Some (pycardano.ScriptHash h) ->
  pycardano.plutus_v2_script (pycardano.transaction_witness_set tx) = None
  \/ pycardano.plutus_v2_script (pycardano.transaction_witness_set tx) = Some [] ->
  spending_invocation info ri rri i u tx = (Raise (MissingRedeemer SPEND i), tx)
  \/ spending_invocation info ri rri i u tx = (Raise UnsupportedScript, tx).
Proof.
  intros Hp Hs. unfold spending_invocation, extend_potential_scripts. rewrite Hp.
  destruct (next_redeemer _ i SPEND) as [r| |]; [right | by left | by left].
  destruct Hs as [Hs | Hs]; rewrite Hs; simpl; by rewrite Hs.
Qed.

(** Whatever the outcome, a pass leaves the body, the redeemers and the
    attached datums of the transaction as they were: the script list of the
    witness set is all it can change. *)
Lemma generate_same_but_scripts (tx tx' : pycardano.Transaction)
    (ri rri : list pycardano.UTxO) (r : result (list ScriptInvocation)) :
  generate_script_contexts_resolved tx ri rri = (r, tx') -> same_but_scripts tx tx'.
Proof.
  unfold generate_script_contexts_resolved.
  destruct (to_tx_info _ _ _) as [info|e].
  - destruct (spending_loop info ri rri 0 ri tx) as [[spends|e] tx1] eqn:Hloop;
      apply spending_loop_same in Hloop.
    + destruct (minting_loop _ _ _ _); by intros [= <- <-].
    + by intros [= <- <-].
  - intros [= <- <-]. apply same_but_scripts_refl.
Qed.

End Resolution.


(** * The resolver on the sample transactions *)

Section SampleRuns.
Import Sample.
#[local] Existing Instance library.



(** The witness of C6: an inline datum is used, an attached datum is found
    by its hash behind another one, a hash without attached datum and an
    output with no datum at all raise. *)
Lemma spending_datum_resolution_witness :
  (exists info inv,
      spending_invocation info [utxo 0 locked_inline] [] 0 (utxo 0 locked_inline)
        tx_attached_a = (Ok (Some inv), tx_attached_a)
      /\ datum inv = Some datum_d)
  /\ (exists info inv,
         spending_invocation info [utxo 0 locked_hashed] [] 0 (utxo 0 locked_hashed)
           tx_attached_a_with_datum = (Ok (Some inv), tx_attached_a_with_datum)
         /\ datum inv = Some datum_d)
  /\ generate_script_contexts_resolved tx_attached_a [utxo 0 locked_hashed] []
     = (Raise (MissingDatum_hash "hd:d"), tx_attached_a)
  /\ generate_script_contexts_resolved tx_attached_a [utxo 0 locked_bare] []
     = (Raise MissingDatum_none, tx_attached_a)
  /\ (exists inv,
         generate_script_contexts_resolved tx_attached_a [utxo 0 locked_inline] []
         = (Ok [inv], tx_attached_a)
         /\ datum inv = Some datum_d).
Proof.
  split; [| split; [| split; [| split]]]; cycle 4.
  - eexists. split; [reflexivity |].
    edestruct (proj2 (proj2 (proj2 (proj2 (spending_datum_resolution tx_attached_a
                                             [utxo 0 locked_inline] [] 0
                                             (utxo 0 locked_inline) hash_a
                                             eq_refl eq_refl)))))
      as (inv & d & Hin & _ & Hd & Hcase); [reflexivity |].
    apply list_elem_of_singleton in Hin as ->. rewrite Hd. f_equal.
    destruct Hcase as [[= <-] | [Hnone _]]; [reflexivity | discriminate Hnone].
  - eexists _, _. split.
    + exact (proj1 (spending_datum_resolution tx_attached_a
                      [utxo 0 locked_inline] [] 0 (utxo 0 locked_inline) hash_a
                      eq_refl eq_refl)
               datum_d eq_refl
               _ tx_attached_a _ _ eq_refl (ex_intro _ [] eq_refl) eq_refl eq_refl).
    + reflexivity.
  - eexists _, _. split.
    + refine (proj1 (proj2 (spending_datum_resolution tx_attached_a_with_datum
                              [utxo 0 locked_hashed] [] 0 (utxo 0 locked_hashed) hash_a
                              eq_refl eq_refl))
                datum_d _
                _ tx_attached_a_with_datum _ _ eq_refl (ex_intro _ [] eq_refl)
                eq_refl eq_refl).
      split; [reflexivity |].
      exists "hd:d"%string, [pycardano.RawCBOR "other"], [].
      split; [reflexivity |]. split; [reflexivity |]. split; [reflexivity |].
      repeat constructor. discriminate.
    + reflexivity.
  - refine (proj1 (proj1 (proj2 (proj2 (spending_datum_resolution tx_attached_a
                                          [utxo 0 locked_hashed] [] 0
                                          (utxo 0 locked_hashed) hash_a
                                          eq_refl eq_refl)))
                     "hd:d"%string eq_refl eq_refl _)
              _ tx_attached_a _ _ eq_refl (ex_intro _ [] eq_refl) eq_refl eq_refl).
    constructor.
  - exact (proj1 (proj1 (proj2 (proj2 (proj2 (spending_datum_resolution tx_attached_a
                                               [utxo 0 locked_bare] [] 0
                                               (utxo 0 locked_bare) hash_a
                                               eq_refl eq_refl))))
                    eq_refl eq_refl)
             _ tx_attached_a _ _ eq_refl (ex_intro _ [] eq_refl) eq_refl eq_refl).
Defined.

(** The input held by a key is skipped and the list holds the invocation
    of input 1; two inputs locked by the validator have their invocations
    in the order of the inputs. *)
Lemma invocations_in_order_witness :
  (exists inv,
      generate_script_contexts_resolved tx_two_inputs
        [utxo 0 key_output; utxo 1 locked_inline] []
      = (Ok [inv], tx_two_inputs)
      /\ map invocation_purpose [inv] = [Spending (to_tx_out_ref (tx_input 1))])
  /\ (exists invs tx',
         generate_script_contexts_resolved Scenario.tx_two_locked
           [utxo 0 locked_inline; utxo 1 locked_inline] [utxo 2 carrier]
         = (Ok invs, tx')
         /\ map invocation_purpose invs
            = [Spending (to_tx_out_ref (tx_input 0));
               Spending (to_tx_out_ref (tx_input 1))]).
Proof.
  split.
  - eexists. split; [reflexivity |].
    exact (proj2 (invocations_in_order tx_two_inputs tx_two_inputs
                    [utxo 0 key_output; utxo 1 locked_inline] [] _ eq_refl eq_refl)).
  - eexists _, _. split; [reflexivity |].
    exact (proj2 (invocations_in_order Scenario.tx_two_locked _
                    [utxo 0 locked_inline; utxo 1 locked_inline] [utxo 2 carrier]
                    _ eq_refl eq_refl)).
Defined.

(** C1, at the input where the search misses the pool. No script is
    attached to the transaction and the reference input carries the
    validator as its reference script: the validator is in the candidate
    pool of the design and its hash is the payment credential of the
    spending input, yet the search, which reads the witness list and not
    the pool, raises the unsupported-script error. *)
Theorem reference_script_not_searched :
  validator_a ∈ spec_candidate_pool tx_reference_only [utxo 0 locked_inline] [utxo 1 carrier]
  /\ as_plutus_v2 validator_a = Some "validator-a"%string
  /\ pycardano.payment_part (pycardano.address locked_inline)
     = Some (pycardano.ScriptHash (pycardano.plutus_script_hash "validator-a"))
  /\ generate_script_contexts_resolved tx_reference_only
       [utxo 0 locked_inline] [utxo 1 carrier]
     = (Raise UnsupportedScript, tx_reference_only).
Proof.
  split; [| by repeat split].
  apply elem_of_cons. by left.
Qed.

(** C5, at an input that the pass changes. One script is attached and the
    reference input carries the validator: the pass returns the invocation
    of the validator, and leaves the validator appended to the script list
    of the witness set, which was [[validator_b]] before the call. *)
Theorem witness_scripts_appended :
  pycardano.plutus_v2_script (pycardano.transaction_witness_set tx_attached_b)
  = Some [validator_b]
  /\ exists inv tx',
       generate_script_contexts_resolved tx_attached_b
         [utxo 0 locked_inline] [utxo 1 carrier]
       = (Ok [inv], tx')
       /\ script_type inv = validator_a
       /\ pycardano.plutus_v2_script (pycardano.transaction_witness_set tx')
          = Some [validator_b; validator_a]
       /\ tx' <> tx_attached_b.
Proof.
  split; [reflexivity |]. eexists _, _. split; [reflexivity |].
  split; [reflexivity |]. split; [reflexivity |]. discriminate.
Qed.

(** C2, at the input of the scenario. The mint holds one token of the one
    policy [hash_a], the redeemer has tag mint and index 0, and the attached
    validator has hash [hash_a]. The pass raises [TypeError] while the
    transaction info is built, when the mint is converted. With the same
    mint holding no token the transaction info is built, the redeemer and
    the script are found, and the pass raises in the construction of the
    invocation: in the call of [hash] on the script when its class has no
    such method, and in the call of [ScriptInvocation] with three arguments
    when it has. *)
Theorem minting_scenario_raises :
  mint_policies tx_mint = [pycardano.plutus_script_hash "validator-a"]
  /\ next_redeemer (pycardano.redeemer (pycardano.transaction_witness_set tx_mint)) 0 MINT
     = Found (a_redeemer MINT 0 "forge")
  /\ next_script (pycardano.plutus_v2_script (pycardano.transaction_witness_set tx_mint))
       (pycardano.plutus_script_hash "validator-a")
     = Found validator_a
  /\ to_tx_info tx_mint [key_output] [] = Raise PyTypeError
  /\ generate_script_contexts_resolved tx_mint [utxo 0 key_output] []
     = (Raise PyTypeError, tx_mint)
  /\ mint_policies Scenario.tx_mint_no_token = [pycardano.plutus_script_hash "validator-a"]
  /\ (exists info, to_tx_info Scenario.tx_mint_no_token [key_output] [] = Ok info)
  /\ @generate_script_contexts_resolved library Scenario.tx_mint_no_token
       [utxo 0 key_output] []
     = (Raise PyAttributeError, Scenario.tx_mint_no_token)
  /\ @generate_script_contexts_resolved library_with_hash Scenario.tx_mint_no_token
       [utxo 0 key_output] []
     = (Raise PyTypeError, Scenario.tx_mint_no_token).
Proof.
  repeat (split; [reflexivity |]).
  split; [eexists; reflexivity |]. split; reflexivity.
Qed.

(** C10, at an input with a spending and a minting script. Input 0 is
    locked by the validator, which is also the one policy of the mint, and
    both redeemers are there. The spending loop returns the invocation of
    input 0; the iteration for the policy then finds its redeemer and its
    script and raises, so that no list is returned, neither with the
    minting invocation after the spending one nor otherwise. With a token
    in the mint the pass raises before the loops, when the mint is
    converted. *)
Theorem spending_then_minting_raises :
  (exists info inv,
      to_tx_info (Scenario.tx_spend_and_mint []) [locked_inline] [] = Ok info
      /\ spending_loop info [utxo 0 locked_inline] [] 0 [utxo 0 locked_inline]
           (Scenario.tx_spend_and_mint [])
         = (Ok [inv], Scenario.tx_spend_and_mint [])
      /\ invocation_purpose inv = Spending (to_tx_out_ref (tx_input 0)))
  /\ mint_policies (Scenario.tx_spend_and_mint []) = [hash_a]
  /\ next_redeemer
       (pycardano.redeemer
          (pycardano.transaction_witness_set (Scenario.tx_spend_and_mint []))) 0 MINT
     = Found (a_redeemer MINT 0 "forge")
  /\ next_script
       (pycardano.plutus_v2_script
          (pycardano.transaction_witness_set (Scenario.tx_spend_and_mint []))) hash_a
     = Found validator_a
  /\ @generate_script_contexts_resolved library (Scenario.tx_spend_and_mint [])
       [utxo 0 locked_inline] []
     = (Raise PyAttributeError, Scenario.tx_spend_and_mint [])
  /\ @generate_script_contexts_resolved library_with_hash (Scenario.tx_spend_and_mint [])
       [utxo 0 locked_inline] []
     = (Raise PyTypeError, Scenario.tx_spend_and_mint [])
  /\ generate_script_contexts_resolved (Scenario.tx_spend_and_mint [("token"%string, 1)])
       [utxo 0 locked_inline] []
     = (Raise PyTypeError, Scenario.tx_spend_and_mint [("token"%string, 1)]).
Proof.
  split; [eexists _, _; repeat split; reflexivity |].
  repeat (split; [reflexivity |]). reflexivity.
Qed.

End SampleRuns.


(** * Further properties of the converters *)

Section Dicts.
Context {K V : Type} `{EqDecision K}.

Lemma dict_set_keys (k k' : K) (v : V) (d : list (K * V)) :
  k' ∈ (dict_set k v d).*1 <-> k' = k \/ k' ∈ d.*1.
Proof.
  induction d as [|[k0 v0] d IH]; simpl.
  - rewrite list_elem_of_singleton. split; [by left | intros [? | Hin]; [done |]].
    by apply elem_of_nil in Hin.
  - case_decide as Hk; simpl; rewrite !elem_of_cons.
    + subst k0. tauto.
    + rewrite IH. tauto.
Qed.

Lemma dict_set_NoDup (k : K) (v : V) (d : list (K * V)) :
  NoDup d.*1 -> NoDup (dict_set k v d).*1.
Proof.
  induction d as [|[k0 v0] d IH]; simpl; intros Hd.
  - apply NoDup_singleton.
  - apply NoDup_cons in Hd as [Hk0 Hd]. case_decide as Hk; simpl.
    + by apply NoDup_cons.
    + apply NoDup_cons. split; [| by apply IH].
      rewrite dict_set_keys. intros [-> | Hin]; done.
Qed.

Lemma dict_set_fresh (k : K) (v : V) (d : list (K * V)) :
  k ∉ d.*1 -> dict_set k v d = d ++ [(k, v)].
Proof.
  induction d as [|[k0 v0] d IH]; simpl; intros Hk; [done |].
  apply not_elem_of_cons in Hk as [Hne Hk].
  rewrite decide_False by done. by rewrite IH.
Qed.

Lemma dict_get_dict_set (k k' : K) (v : V) (d : list (K * V)) :
  dict_get k' (dict_set k v d) = if decide (k' = k) then Some v else dict_get k' d.
Proof.
  induction d as [|[k0 v0] d IH]; simpl.
  - by destruct (decide (k' = k)).
  - destruct (decide (k = k0)) as [-> | Hk]; simpl.
    + by destruct (decide (k' = k0)).
    + rewrite IH. destruct (decide (k' = k0)) as [-> | ?]; [| done].
      by rewrite decide_False.
Qed.

Lemma dict_get_app (k : K) (d1 d2 : list (K * V)) :
  dict_get k (d1 ++ d2)
  = match dict_get k d1 with Some v => Some v | None => dict_get k d2 end.
Proof.
  induction d1 as [|[k0 v0] d1 IH]; simpl; [done |]. by destruct (decide (k = k0)).
Qed.

Lemma dict_get_None (k : K) (d : list (K * V)) : dict_get k d = None <-> k ∉ d.*1.
Proof.
  induction d as [|[k0 v0] d IH]; simpl.
  - split; [intros _; apply not_elem_of_nil | done].
  - rewrite not_elem_of_cons. destruct (decide (k = k0)); [| tauto].
    split; [done | tauto].
Qed.

Lemma dict_get_Some (k : K) (v : V) (d : list (K * V)) :
  dict_get k d = Some v -> (k, v) ∈ d.
Proof.
  induction d as [|[k0 v0] d IH]; simpl; [done |].
  destruct (decide (k = k0)) as [-> | ?].
  - intros [= ->]. by left.
  - intros H. right. by apply IH.
Qed.

(** Successive assignments [d[k] = v]: the keys stay distinct and a later
    assignment overrides an earlier one. *)
Lemma foldl_dict_set_NoDup (ps acc : list (K * V)) :
  NoDup acc.*1 -> NoDup (foldl (fun d kv => dict_set kv.1 kv.2 d) acc ps).*1.
Proof.
  revert acc. induction ps as [|p ps IH]; simpl; intros acc Hacc; [done |].
  by apply IH, dict_set_NoDup.
Qed.

Lemma foldl_dict_set_get (k : K) (ps acc : list (K * V)) :
  dict_get k (foldl (fun d kv => dict_set kv.1 kv.2 d) acc ps)
  = match dict_get k (reverse ps) with Some v => Some v | None => dict_get k acc end.
Proof.
  revert acc. induction ps as [|[k0 v0] ps IH]; simpl; intros acc; [done |].
  rewrite IH, reverse_cons, dict_get_app, dict_get_dict_set. simpl.
  destruct (dict_get k (reverse ps)); [done |]. by destruct (decide (k = k0)).
Qed.

Lemma foldl_dict_set_fresh (ps acc : list (K * V)) :
  NoDup (acc ++ ps).*1 -> foldl (fun d kv => dict_set kv.1 kv.2 d) acc ps = acc ++ ps.
Proof.
  revert acc. induction ps as [|[k0 v0] ps IH]; simpl; intros acc Hnd.
  - by rewrite app_nil_r.
  - rewrite dict_set_fresh.
    + rewrite IH; rewrite <- app_assoc; [done | exact Hnd].
    + rewrite fmap_app in Hnd. apply NoDup_app in Hnd as (_ & Hdisj & _).
      intros Hin. apply (Hdisj _ Hin). simpl. by left.
Qed.

End Dicts.

Section Comprehensions.
Context {A B : Type} (f : A -> result B).

Lemma comprehension_Ok_Forall2 (l : list A) (ys : list B) :
  comprehension f l = Ok ys <-> Forall2 (fun x y => f x = Ok y) l ys.
Proof.
  revert ys. induction l as [|x l IH]; simpl; intros ys.
  - split; [intros [= <-]; constructor | by inversion 1].
  - split.
    + destruct (f x) as [y|e] eqn:Hx; simpl; [| done].
      destruct (comprehension f l) as [ys'|e] eqn:Hl; simpl; [| done].
      intros [= <-]. constructor; [done |]. by apply IH.
    + inversion 1 as [|? y ? ys' Hx Hl]; subst. rewrite Hx. simpl.
      apply IH in Hl. by rewrite Hl.
Qed.

(** A comprehension raises the exception of its first element that
    does. *)
Lemma comprehension_Raise (l : list A) (e : Exception) :
  comprehension f l = Raise e
  <-> exists before x after,
        l = before ++ x :: after
        /\ Forall (fun x' => exists y, f x' = Ok y) before
        /\ f x = Raise e.
Proof.
  induction l as [|x l IH]; simpl.
  - split; [done |]. intros (before & x & after & Hl & _). by destruct before.
  - split.
    + destruct (f x) as [y|e'] eqn:Hx; simpl.
      * destruct (comprehension f l) as [ys|e'] eqn:Hl; simpl; [done |].
        intros [= ->]. destruct (proj1 IH eq_refl) as (before & x' & after & -> & Hb & Hx').
        exists (x :: before), x', after. repeat split; [| done].
        constructor; eauto.
      * intros [= ->]. exists [], x, l. by repeat split.
    + intros (before & x' & after & Heq & Hbefore & Hx').
      destruct before as [|x0 before]; simpl in Heq; injection Heq as <- ->.
      * by rewrite Hx'.
      * apply Forall_cons in Hbefore as [[y ->] Hbefore]. simpl.
        assert (comprehension f (before ++ x' :: after) = Raise e) as ->; [| done].
        apply IH. by exists before, x', after.
Qed.

End Comprehensions.

Section MoreConverterFacts.
Context `{lib : pycardano.Library}.

(** What [to_address] keeps of an address: two addresses have the same
    conversion exactly when they have the same payment part and the same
    staking part, both of which can be read back from the converted
    address. The network of the address is not converted. *)
Theorem to_address_injective (a a' : pycardano.Address) (x : Address) :
  to_address a = Ok x ->
  (to_address a' = Ok x
   <-> pycardano.payment_part a = pycardano.payment_part a'
       /\ pycardano.staking_part a = pycardano.staking_part a').
Proof.
  intros H. split.
  - revert H.
    destruct a as [[[p|p|s t c]|] [[q|q|s2 t2 c2]|] n];
      destruct a' as [[[p'|p'|s' t' c']|] [[q'|q'|s2' t2' c2']|] n'];
      cbv; intros H H'; simplify_eq; by split.
  - intros [Hp Hs]. unfold to_address in *. by rewrite <- Hp, <- Hs.
Qed.

(** ** Withdrawals *)

Lemma to_wdrl_items_cons (key : bytes) (val : Z) (items : list (bytes * Z))
    (acc : list (StakingCredential * Z)) :
  to_wdrl_items ((key, val) :: items) acc
  = match to_wdrl_m key with
    | Ok h => to_wdrl_items items (dict_set h val acc)
    | Raise e => Raise e
    end.
Proof.
  simpl. unfold to_wdrl_m.
  destruct (pycardano.address_from_primitive key) as [a|]; simpl; [| done].
  by destruct (to_staking_hash (pycardano.staking_part a)).
Qed.

Lemma to_wdrl_items_comprehension (items : list (bytes * Z))
    (acc : list (StakingCredential * Z)) :
  to_wdrl_items items acc
  = match comprehension to_wdrl_m items.*1 with
    | Ok ks => Ok (foldl (fun d kv => dict_set kv.1 kv.2 d) acc (zip ks items.*2))
    | Raise e => Raise e
    end.
Proof.
  revert acc. induction items as [|[key val] items IH]; intros acc; [done |].
  rewrite to_wdrl_items_cons. simpl in *.
  destruct (to_wdrl_m key) as [h|e]; simpl; [| done].
  rewrite IH. by destruct (comprehension to_wdrl_m _).
Qed.

Lemma Forall2_fst_keys (items : list (bytes * Z)) (ks : list StakingCredential) :
  Forall2 (fun kv k => to_wdrl_m kv.1 = Ok k) items ks
  <-> Forall2 (fun key k => to_wdrl_m key = Ok k) items.*1 ks.
Proof. by rewrite Forall2_fmap_l. Qed.

(** [to_wdrl] raises exactly when the conversion of some key raises (the
    reward address does not decode, or it has no staking part), and then
    with the exception of the first such key; the amounts play no part. *)
Theorem to_wdrl_raises_first_key (items : list (bytes * Z)) (e : Exception) :
  to_wdrl (Some items) = Raise e
  <-> exists before key amount after,
        items = before ++ (key, amount) :: after
        /\ Forall (fun kv => exists k, to_wdrl_m kv.1 = Ok k) before
        /\ to_wdrl_m key = Raise e.
Proof.
  simpl. rewrite to_wdrl_items_comprehension. split.
  - destruct (comprehension to_wdrl_m items.*1) as [ks|e'] eqn:Hc; [done |].
    intros [= ->]. apply comprehension_Raise in Hc as (before & key & after & Hl & Hb & Hk).
    apply fmap_app_inv in Hl as (before' & rest & -> & Hrest & ->).
    destruct rest as [|[key' amount] after']; simplify_eq/=.
    exists before', key', amount, after'. repeat split; [| done].
    exact (proj1 (Forall_fmap _ _ _) Hb).
  - intros (before & key & amount & after & -> & Hb & Hk).
    assert (comprehension to_wdrl_m (before ++ (key, amount) :: after).*1 = Raise e) as ->;
      [| done].
    apply comprehension_Raise. exists before.*1, key, after.*1.
    rewrite fmap_app. repeat split; [| done].
    exact (proj2 (Forall_fmap fst (fun x' => exists y, to_wdrl_m x' = Ok y) before) Hb).
Qed.

(** What [to_wdrl] returns: a dict whose keys are the converted keys, each
    once, and in which a key has the amount of the last withdrawal that
    converts to it. *)
Theorem to_wdrl_last_amount (items : list (bytes * Z)) (d : list (StakingCredential * Z)) :
  to_wdrl (Some items) = Ok d ->
  exists ks,
    Forall2 (fun kv k => to_wdrl_m kv.1 = Ok k) items ks
    /\ NoDup d.*1
    /\ forall k, dict_get k d = dict_get k (reverse (zip ks items.*2)).
Proof.
  simpl. rewrite to_wdrl_items_comprehension.
  destruct (comprehension to_wdrl_m items.*1) as [ks|e] eqn:Hc; [| done].
  intros [= <-]. exists ks. split; [| split].
  - by apply Forall2_fst_keys, comprehension_Ok_Forall2.
  - apply foldl_dict_set_NoDup. constructor.
  - intros k. rewrite foldl_dict_set_get. by destruct (dict_get k _).
Qed.

(** When the keys convert to distinct credentials, the dict lists the
    withdrawals in their order, each with its own amount. *)
Theorem to_wdrl_distinct_keys (items : list (bytes * Z)) (ks : list StakingCredential) :
  Forall2 (fun kv k => to_wdrl_m kv.1 = Ok k) items ks ->
  NoDup ks ->
  to_wdrl (Some items) = Ok (zip ks items.*2).
Proof.
  intros Hks Hnd. simpl. rewrite to_wdrl_items_comprehension.
  pose proof (Forall2_length _ _ _ Hks) as Hlen.
  apply Forall2_fst_keys, comprehension_Ok_Forall2 in Hks. rewrite Hks.
  f_equal. apply foldl_dict_set_fresh. simpl.
  rewrite fst_zip; [done |]. rewrite length_fmap. lia.
Qed.

(** ** Values *)

Lemma dict_of_items_dom {V} (items : list (bytes * V)) :
  dom (dict_of_items items) = list_to_set items.*1.
Proof.
  unfold dict_of_items.
  assert (forall m : gmap string V,
             dom (foldl (fun m kv => <[kv.1 := kv.2]> m) m items)
             = dom m ∪ list_to_set items.*1) as H.
  { induction items as [|[k v] items IH]; simpl; intros m.
    - by rewrite (right_id_L ∅ (∪)).
    - rewrite IH, dom_insert_L. simpl.
      by rewrite (comm_L (∪) {[k]} (dom m)), (assoc_L (∪)). }
  by rewrite H, dom_empty_L, (left_id_L ∅ (∪)).
Qed.

Lemma dict_of_items_constant {V} (items : list (bytes * V)) (v : V) (k : bytes) :
  Forall (fun kv => kv.2 = v) items -> k ∈ items.*1 ->
  dict_of_items items !! k = Some v.
Proof.
  intros Hall Hk.
  assert (k ∈ dom (dict_of_items items)) as Hdom.
  { rewrite dict_of_items_dom. by apply elem_of_list_to_set. }
  apply elem_of_dom in Hdom as [w Hw]. rewrite Hw. f_equal.
  revert Hw. unfold dict_of_items.
  assert (forall m : gmap string V,
             (forall w', m !! k = Some w' -> w' = v) ->
             foldl (fun m kv => <[kv.1 := kv.2]> m) m items !! k = Some w -> w = v)
    as H; [| apply H; intros w'; by rewrite lookup_empty].
  clear Hk. induction Hall as [|[k' v'] items Hv _ IH]; simpl in *; intros m Hm.
  - apply Hm.
  - apply IH. intros w'. destruct (decide (k' = k)) as [->|Hne].
    + rewrite lookup_insert_eq. by intros [= <-].
    + rewrite lookup_insert_ne by done. apply Hm.
Qed.

(** [value_to_value] on a ledger amount with a multi-asset. When no asset
    of the multi-asset holds a token, the converted value has the policies
    of the multi-asset and the empty policy of the native currency, none
    lost and none made up; the native currency has the coin of the amount
    and every other policy has no token. When some asset holds a token,
    the conversion raises [TypeError]: no quantity of a token is ever
    carried over. *)
Theorem value_to_value_policies (c : Z) (ma : pycardano.MultiAsset) :
  let v := {| pycardano.coin := c; pycardano.multi_asset := Some ma |} in
  (token_free (Some ma) ->
   exists value,
     value_to_value v = Ok value
     /\ dom value = {[ b_empty ]} ∪ list_to_set ma.*1
     /\ value !! b_empty = Some {[ b_empty := c ]}
     /\ forall policy_id,
          policy_id ∈ ma.*1 -> policy_id <> b_empty -> value !! policy_id = Some ∅)
  /\ (~ token_free (Some ma) -> value_to_value v = Raise PyTypeError).
Proof.
  intros v. split.
  - intros Hfree. unfold value_to_value, v. simpl pycardano.multi_asset.
    rewrite (multiasset_to_value_token_free _ Hfree). simpl.
    eexists. split; [reflexivity |]. split; [| split].
    + rewrite dom_insert_L, dict_of_items_dom. by rewrite <- list_fmap_compose.
    + apply lookup_insert_eq.
    + intros policy_id Hin Hne. rewrite lookup_insert_ne by done.
      apply dict_of_items_constant.
      * apply Forall_forall. intros kv Hkv.
        apply list_elem_of_fmap in Hkv as (pa & -> & _). done.
      * by rewrite <- list_fmap_compose.
  - intros Hnot. by apply value_to_value_token.
Qed.

(** No quantity of a token is found again in a converted value: a
    multi-asset in which some policy has an asset with a token is not
    converted, neither as a mint nor within a ledger amount. The inner
    comprehension iterates the asset, which gives its token names, and
    unpacks each of them into a name and a quantity: [TypeError]. *)
Theorem value_to_value_quantity (c : Z) (ma : pycardano.MultiAsset)
    (policy_id : bytes) (asset : pycardano.Asset) (token_name : bytes) (quantity : Z) :
  (policy_id, asset) ∈ ma -> (token_name, quantity) ∈ asset ->
  multiasset_to_value (Some ma) = Raise PyTypeError
  /\ value_to_value {| pycardano.coin := c; pycardano.multi_asset := Some ma |}
     = Raise PyTypeError.
Proof.
  intros Hp Ht.
  assert (~ token_free (Some ma)) as Hnot.
  { intros Hfree. apply (proj1 (Forall_forall _ _) Hfree) in Hp. simpl in Hp.
    subst asset. by apply elem_of_nil in Ht. }
  split; [by apply multiasset_to_value_token | by apply value_to_value_token].
Qed.

End MoreConverterFacts.

Lemma to_address_injective_witness :
  Sample.key_address <> Scenario.key_address_mainnet
  /\ to_address Scenario.key_address_mainnet = to_address Sample.key_address
  /\ (to_address (Sample.script_address Sample.hash_a) = to_address Sample.key_address
      -> False).
Proof.
  split; [discriminate |]. split.
  - exact (proj2 (to_address_injective Sample.key_address Scenario.key_address_mainnet
                    _ eq_refl) (conj eq_refl eq_refl)).
  - intros H.
    destruct (proj1 (to_address_injective Sample.key_address
                       (Sample.script_address Sample.hash_a) _ eq_refl) H) as [Hp _].
    discriminate Hp.
Defined.

(** Three withdrawals, the first and the last for the same stake key: the
    dict has two keys and the key of the first has the last amount. *)
Lemma to_wdrl_last_amount_witness :
  exists d,
    @to_wdrl Scenario.decoding_library
      (Some [("stake:alice"%string, 5); ("stake:bob"%string, 7);
             ("stake:alice-again"%string, 9)]) = Ok d
    /\ NoDup d.*1
    /\ dict_get (StakingHash (PubKeyCredential "alice")) d = Some 9.
Proof.
  eexists. split; [reflexivity |].
  destruct (@to_wdrl_last_amount Scenario.decoding_library
              [("stake:alice"%string, 5); ("stake:bob"%string, 7);
               ("stake:alice-again"%string, 9)] _ eq_refl)
    as (ks & Hks & Hnd & Hget).
  split; [exact Hnd |]. reflexivity.
Defined.

Lemma to_wdrl_distinct_keys_witness :
  @to_wdrl Scenario.decoding_library
    (Some [("stake:alice"%string, 5); ("stake:bob"%string, 7)])
  = Ok [(StakingHash (PubKeyCredential "alice"), 5);
        (StakingHash (ScriptCredential "bob"), 7)].
Proof.
  apply (@to_wdrl_distinct_keys Scenario.decoding_library
           [("stake:alice"%string, 5); ("stake:bob"%string, 7)]
           [StakingHash (PubKeyCredential "alice"); StakingHash (ScriptCredential "bob")]).
  - repeat constructor.
  - compute_done.
Defined.

Lemma value_to_value_quantity_witness :
  multiasset_to_value (Some Scenario.a_multi_asset) = Raise PyTypeError
  /\ value_to_value {| pycardano.coin := 5;
                       pycardano.multi_asset := Some Scenario.a_multi_asset |}
     = Raise PyTypeError.
Proof.
  apply (value_to_value_quantity 5 Scenario.a_multi_asset "policy"
           [("token"%string, 1); ("other"%string, 7)] "other" 7).
  - by left.
  - right. by left.
Defined.

Lemma value_to_value_policies_witness :
  (exists value,
      value_to_value {| pycardano.coin := 5;
                        pycardano.multi_asset := Some Scenario.an_empty_asset |}
      = Ok value
      /\ dom value = {[ b_empty ]} ∪ list_to_set Scenario.an_empty_asset.*1
      /\ value !! b_empty = Some {[ b_empty := 5 ]}
      /\ forall policy_id,
           policy_id ∈ Scenario.an_empty_asset.*1 -> policy_id <> b_empty ->
           value !! policy_id = Some ∅)
  /\ value_to_value {| pycardano.coin := 5;
                       pycardano.multi_asset := Some Scenario.a_multi_asset |}
     = Raise PyTypeError.
Proof.
  split.
  - apply (proj1 (value_to_value_policies 5 Scenario.an_empty_asset)).
    repeat constructor.
  - apply (proj2 (value_to_value_policies 5 Scenario.a_multi_asset)).
    intros H. apply Forall_cons in H as [H _]. discriminate H.
Defined.


(** * Further properties of the transaction-info builder *)

Section MoreBuilderFacts.
Context `{lib : pycardano.Library}.

Lemma comprehension_returns {A B} (f : A -> result B) (l : list A) :
  (exists ys, comprehension f l = Ok ys) <-> Forall (fun x => exists y, f x = Ok y) l.
Proof.
  split; [| apply comprehension_ok].
  intros [ys Hys]. apply comprehension_Ok_Forall2 in Hys.
  induction Hys; constructor; eauto.
Qed.

Lemma Forall_zip_take {A B} (P : B -> Prop) (l1 : list A) (l2 : list B) :
  Forall (fun p => P p.2) (zip l1 l2) <-> Forall P (take (length l1) l2).
Proof.
  revert l2. induction l1 as [|x l1 IH]; intros [|y l2]; simpl.
  - split; constructor.
  - split; constructor.
  - split; constructor.
  - by rewrite !Forall_cons, IH.
Qed.

Lemma to_tx_in_info_returns (l1 : list pycardano.TransactionInput)
    (l2 : list pycardano.TransactionOutput) :
  (exists ys, comprehension to_tx_in_info (zip l1 l2) = Ok ys)
  <-> Forall convertible (take (length l1) l2).
Proof.
  rewrite comprehension_returns, <- Forall_zip_take.
  apply Forall_iff. intros [i o]. simpl. rewrite to_tx_out_convertible.
  unfold to_tx_in_info. simpl. split.
  - intros [y Hy]. destruct (to_tx_out o); [eauto | done].
  - intros [t ->]. simpl. eauto.
Qed.

Lemma to_tx_out_returns (l : list pycardano.TransactionOutput) :
  (exists ys, comprehension to_tx_out l = Ok ys) <-> Forall convertible l.
Proof.
  rewrite comprehension_returns. apply Forall_iff. intros o.
  symmetry. apply to_tx_out_convertible.
Qed.

(** When [to_tx_info] returns. It returns exactly when the outputs it
    converts (the resolved inputs and reference inputs that are paired with
    an input of the body, and the outputs of the body) have a key hash or a
    script hash as payment part and hold no token, the mint holds no token,
    the body holds no certificate, the withdrawals convert and the witness
    set has a list of redeemers, be it empty: a witness set whose redeemers
    are [None] makes it raise, and so does any token, in an output or in
    the mint. *)
Theorem to_tx_info_returns_iff (tx : pycardano.Transaction)
    (resolved_inputs resolved_reference_inputs : list pycardano.TransactionOutput) :
  let tx_body := pycardano.transaction_body tx in
  (exists info, to_tx_info tx resolved_inputs resolved_reference_inputs = Ok info)
  <-> Forall convertible
        (take (length (pycardano.inputs tx_body)) resolved_inputs)
      /\ (forall refs,
             pycardano.reference_inputs tx_body = Some refs ->
             Forall convertible (take (length refs) resolved_reference_inputs))
      /\ Forall convertible (pycardano.outputs tx_body)
      /\ token_free (pycardano.mint tx_body)
      /\ (pycardano.certificates tx_body = None
          \/ pycardano.certificates tx_body = Some [])
      /\ (exists w, to_wdrl (pycardano.withdraws tx_body) = Ok w)
      /\ (exists rs,
             pycardano.redeemer (pycardano.transaction_witness_set tx) = Some rs).
Proof.
  intros tx_body. unfold to_tx_info. fold tx_body. split.
  - intros [info H].
    destruct (comprehension to_tx_in_info (zip _ resolved_inputs)) as [ins|] eqn:E1;
      simpl in H; [| done].
    split; [apply to_tx_in_info_returns; eauto |].
    destruct (pycardano.reference_inputs tx_body) as [refs|] eqn:Erefs.
    + destruct (comprehension to_tx_in_info (zip refs _)) as [rs|] eqn:E2;
        simpl in H; [| done].
      split; [intros ? [= <-]; apply to_tx_in_info_returns; eauto |].
      destruct (comprehension to_tx_out _) as [outs|] eqn:E3; simpl in H; [| done].
      split; [apply to_tx_out_returns; eauto |].
      destruct (multiasset_to_value (pycardano.mint tx_body)) as [mint|] eqn:E4;
        simpl in H; [| done].
      split; [apply multiasset_to_value_returns; eauto |].
      destruct (pycardano.certificates tx_body) as [[|c cs]|]; simpl in H; try done;
        (split; [auto |]);
        (destruct (to_wdrl _) as [w|]; simpl in H; [| done]);
        (split; [eauto |]);
        (destruct (pycardano.redeemer _) as [rs'|]; [eauto | done]).
    + simpl in H. split; [done |].
      destruct (comprehension to_tx_out _) as [outs|] eqn:E3; simpl in H; [| done].
      split; [apply to_tx_out_returns; eauto |].
      destruct (multiasset_to_value (pycardano.mint tx_body)) as [mint|] eqn:E4;
        simpl in H; [| done].
      split; [apply multiasset_to_value_returns; eauto |].
      destruct (pycardano.certificates tx_body) as [[|c cs]|]; simpl in H; try done;
        (split; [auto |]);
        (destruct (to_wdrl _) as [w|]; simpl in H; [| done]);
        (split; [eauto |]);
        (destruct (pycardano.redeemer _) as [rs'|]; [eauto | done]).
  - intros (Hins & Hrefs & Houts & Hmint & Hcerts & [w Hw] & [rs Hrs]).
    apply to_tx_in_info_returns in Hins as [ins ->]. simpl.
    assert (exists refs',
               match pycardano.reference_inputs tx_body with
               | Some reference_inputs =>
                   comprehension to_tx_in_info
                     (zip reference_inputs resolved_reference_inputs)
               | None => Ok []
               end = Ok refs') as [refs' ->].
    { destruct (pycardano.reference_inputs tx_body) as [refs|]; [| eauto].
      apply to_tx_in_info_returns. by apply Hrefs. }
    simpl.
    destruct (to_tx_out_all_supported _ Houts) as [outs ->]. simpl.
    apply multiasset_to_value_returns in Hmint as [mint ->]. simpl.
    rewrite Hw, Hrs. destruct Hcerts as [-> | ->]; simpl; eauto.
Qed.

(** The inputs and the outputs of the [TxInfo] follow the body position by
    position: input [k] has the reference of the body's input [k] and the
    conversion of the resolved output [k], output [k] is the conversion of
    the body's output [k]. The inputs are as many as the shorter of the
    body's inputs and the resolved outputs: a resolved list that is too
    short shortens the inputs of the [TxInfo] without an exception. *)
Theorem to_tx_info_positional (tx : pycardano.Transaction)
    (resolved_inputs resolved_reference_inputs : list pycardano.TransactionOutput)
    (info : TxInfo) :
  to_tx_info tx resolved_inputs resolved_reference_inputs = Ok info ->
  let tx_body := pycardano.transaction_body tx in
  Forall2 (fun io t => out_ref t = to_tx_out_ref io.1 /\ to_tx_out io.2 = Ok (resolved t))
    (zip (pycardano.inputs tx_body) resolved_inputs) (tx_inputs info)
  /\ length (tx_inputs info)
     = (length (pycardano.inputs tx_body) `min` length resolved_inputs)%nat
  /\ Forall2 (fun o t => to_tx_out o = Ok t) (pycardano.outputs tx_body) (tx_outputs info).
Proof.
  intros H tx_body. unfold to_tx_info in H. fold tx_body in H.
  destruct (comprehension to_tx_in_info (zip _ resolved_inputs)) as [ins|] eqn:E1;
    simpl in H; [| done].
  destruct (match pycardano.reference_inputs tx_body with
            | Some _ => _ | None => _ end) as [refs|]; simpl in H; [| done].
  destruct (comprehension to_tx_out _) as [outs|] eqn:E3; simpl in H; [| done].
  destruct (multiasset_to_value _) as [mint|]; simpl in H; [| done].
  destruct (match pycardano.certificates tx_body with
            | Some _ => _ | None => _ end) as [certs|]; simpl in H; [| done].
  destruct (to_wdrl _) as [w|]; simpl in H; [| done].
  destruct (match pycardano.redeemer _ with Some _ => _ | None => _ end) as [rt|];
    simpl in H; [| done].
  injection H as <-. simpl.
  apply comprehension_Ok_Forall2 in E1, E3.
  assert (Forall2
            (fun io t => out_ref t = to_tx_out_ref io.1 /\ to_tx_out io.2 = Ok (resolved t))
            (zip (pycardano.inputs tx_body) resolved_inputs) ins) as Hins.
  { eapply Forall2_impl; [exact E1 |]. intros [i o] t. unfold to_tx_in_info. simpl.
    destruct (to_tx_out o) as [t'|]; simpl; [| done]. by intros [= <-]. }
  split; [exact Hins |]. split; [| exact E3].
  apply Forall2_length in Hins. by rewrite <- Hins, length_zip.
Qed.

Lemma foldl_insert_lookup_Some {V} (items : list (bytes * V)) (m : gmap string V)
    (k : bytes) (v : V) :
  foldl (fun m kv => <[kv.1 := kv.2]> m) m items !! k = Some v ->
  (k, v) ∈ items \/ m !! k = Some v.
Proof.
  revert m. induction items as [|[k' v'] items IH]; simpl; intros m H; [by right |].
  destruct (IH _ H) as [Hin | Hm].
  - left. by right.
  - destruct (decide (k' = k)) as [-> | Hne].
    + rewrite lookup_insert_eq in Hm. injection Hm as ->. left. by left.
    + rewrite lookup_insert_ne in Hm by done. by right.
Qed.

Lemma foldl_insert_lookup_key {V} (items : list (bytes * V)) (m : gmap string V)
    (k : bytes) :
  k ∈ items.*1 \/ is_Some (m !! k) ->
  is_Some (foldl (fun m kv => <[kv.1 := kv.2]> m) m items !! k).
Proof.
  revert m. induction items as [|[k' v'] items IH]; simpl; intros m H.
  - destruct H as [H | H]; [by apply elem_of_nil in H | done].
  - apply IH. destruct (decide (k' = k)) as [-> | Hne].
    + right. rewrite lookup_insert_eq. eauto.
    + destruct H as [H | H].
      * apply elem_of_cons in H as [-> | H]; [done | by left].
      * right. by rewrite lookup_insert_ne.
Qed.

(** A table [{hash(x): x for x in l}]: every entry is keyed by the hash of
    its value, which is an element of [l], and every element of [l] has an
    entry under its hash. *)
Lemma hash_table_entries {V} (f : V -> bytes) (l : list V) :
  (forall h x, dict_of_items (map (fun x => (f x, x)) l) !! h = Some x ->
               f x = h /\ x ∈ l)
  /\ (forall x, x ∈ l ->
        exists x', dict_of_items (map (fun x => (f x, x)) l) !! f x = Some x'
                   /\ f x' = f x).
Proof.
  assert (forall h x, dict_of_items (map (fun x => (f x, x)) l) !! h = Some x ->
                      f x = h /\ x ∈ l) as Hentries.
  { intros h x H. apply foldl_insert_lookup_Some in H as [H | H].
    - apply (list_elem_of_fmap_1 (fun x => (f x, x))) in H as (x' & [= -> ->] & Hx'). done.
    - by rewrite lookup_empty in H. }
  split; [exact Hentries |].
  intros x Hx.
  destruct (foldl_insert_lookup_key (map (fun x => (f x, x)) l) ∅ (f x)) as [x' Hx'].
  { left. rewrite <- list_fmap_compose.
    apply (list_elem_of_fmap_2 (fun x => f x) _ _ Hx). }
  exists x'. split; [exact Hx' |]. by apply Hentries in Hx' as [-> _].
Qed.

Lemma to_tx_info_datums (tx : pycardano.Transaction)
    (ri rri : list pycardano.TransactionOutput) :
  (let datums :=
     omap pycardano.datum
       (pycardano.outputs (pycardano.transaction_body tx) ++ ri ++ rri) in
   match pycardano.plutus_data (pycardano.transaction_witness_set tx) with
   | Some (d :: ds) => datums ++ d :: ds
   | _ => datums
   end) = datum_sources tx ri rri.
Proof.
  unfold datum_sources.
  destruct (pycardano.plutus_data _) as [[|d ds]|]; simpl; by rewrite ?app_nil_r.
Qed.

(** The two tables of the [TxInfo]. The datum table holds, under its hash,
    every inline datum of an output of the body, of a resolved input or of
    a resolved reference input, and every datum attached to the
    transaction, and nothing else; the redeemer table holds the redeemers
    of the witness set in the same way. Of two values with the same hash
    one is kept. *)
Theorem to_tx_info_tables (tx : pycardano.Transaction)
    (resolved_inputs resolved_reference_inputs : list pycardano.TransactionOutput)
    (info : TxInfo) :
  to_tx_info tx resolved_inputs resolved_reference_inputs = Ok info ->
  let sources := datum_sources tx resolved_inputs resolved_reference_inputs in
  let redeemers :=
    default [] (pycardano.redeemer (pycardano.transaction_witness_set tx)) in
  (forall h d, tx_datums info !! h = Some d ->
               pycardano.hash_of_datum d = h /\ d ∈ sources)
  /\ (forall d, d ∈ sources ->
        exists d', tx_datums info !! pycardano.hash_of_datum d = Some d'
                   /\ pycardano.hash_of_datum d' = pycardano.hash_of_datum d)
  /\ (forall h r, tx_redeemers info !! h = Some r ->
                  pycardano.hash_of_redeemer r = h /\ r ∈ redeemers)
  /\ (forall r, r ∈ redeemers ->
        exists r', tx_redeemers info !! pycardano.hash_of_redeemer r = Some r'
                   /\ pycardano.hash_of_redeemer r' = pycardano.hash_of_redeemer r).
Proof.
  intros H sources redeemers. unfold to_tx_info in H.
  rewrite to_tx_info_datums in H. fold sources in H.
  destruct (comprehension to_tx_in_info (zip _ resolved_inputs)) as [ins|];
    simpl in H; [| done].
  destruct (match pycardano.reference_inputs _ with
            | Some _ => _ | None => _ end) as [refs|]; simpl in H; [| done].
  destruct (comprehension to_tx_out _) as [outs|]; simpl in H; [| done].
  destruct (multiasset_to_value _) as [mint|]; simpl in H; [| done].
  destruct (match pycardano.certificates _ with
            | Some _ => _ | None => _ end) as [certs|]; simpl in H; [| done].
  destruct (to_wdrl _) as [w|]; simpl in H; [| done].
  subst redeemers.
  destruct (pycardano.redeemer _) as [rs|]; simpl in H; [| done].
  injection H as <-. simpl.
  destruct (hash_table_entries pycardano.hash_of_datum sources) as [Hd1 Hd2].
  destruct (hash_table_entries pycardano.hash_of_redeemer rs) as [Hr1 Hr2].
  exact (conj Hd1 (conj Hd2 (conj Hr1 Hr2))).
Qed.

End MoreBuilderFacts.

(** A transaction whose witness set has no list of redeemers is not
    converted, although it has nothing else against it, and neither is one
    that mints a token; with an empty list of redeemers and no token the
    transaction is converted. *)
Lemma to_tx_info_returns_iff_witness :
  (~ exists info,
       @to_tx_info Sample.library
         (Sample.a_transaction (Sample.a_body [] None [Sample.key_output] None None)
            None None None) [] [] = Ok info)
  /\ (~ exists info,
          @to_tx_info Sample.library Sample.tx_mint [Sample.key_output] [] = Ok info)
  /\ exists info, @to_tx_info Sample.library Sample.tx_plain [] [] = Ok info.
Proof.
  split; [| split].
  - intros H.
    apply (proj1 (@to_tx_info_returns_iff Sample.library _ [] [])) in H
      as (_ & _ & _ & _ & _ & _ & [rs Hrs]).
    discriminate.
  - intros H.
    apply (proj1 (@to_tx_info_returns_iff Sample.library _ _ [])) in H
      as (_ & _ & _ & Hmint & _).
    apply Forall_cons in Hmint as [Hmint _]. discriminate Hmint.
  - apply (proj2 (@to_tx_info_returns_iff Sample.library Sample.tx_plain [] [])).
    split; [constructor |]. split; [done |].
    split.
    { repeat constructor. by exists (PubKeyCredential "alice"). }
    split; [constructor |].
    split; [by left |]. split; eexists; reflexivity.
Defined.

(** Two inputs in the body and one resolved output: the [TxInfo] has one
    input. *)
Lemma to_tx_info_positional_witness :
  exists info,
    @to_tx_info Sample.library Sample.tx_two_inputs [Sample.key_output] [] = Ok info
    /\ length (tx_inputs info) = 1%nat.
Proof.
  eexists. split; [reflexivity |].
  exact (proj1 (proj2 (@to_tx_info_positional Sample.library Sample.tx_two_inputs
                         [Sample.key_output] [] _ eq_refl))).
Defined.

Lemma to_tx_info_tables_witness :
  exists info d,
    @to_tx_info Sample.library Sample.tx_attached_a_with_datum [Sample.locked_inline] []
    = Ok info
    /\ tx_datums info !! "hd:other"%string = Some d
    /\ @pycardano.hash_of_datum Sample.library d = "hd:other"%string.
Proof.
  destruct (proj1 (proj2 (@to_tx_info_tables Sample.library
                            Sample.tx_attached_a_with_datum [Sample.locked_inline] []
                            _ eq_refl))
              (pycardano.RawCBOR "other")) as (d & Hd & Hh).
  { compute_done. }
  eexists _, d. split; [reflexivity |]. split; [exact Hd | exact Hh].
Defined.


(** * Further properties of the witness resolver *)

Section MoreResolverFacts.
Context `{lib : pycardano.Library}.

Lemma set_plutus_v2_script_same (tx tx' : pycardano.Transaction) :
  same_but_scripts tx tx' ->
  tx' = set_plutus_v2_script tx
          (pycardano.plutus_v2_script (pycardano.transaction_witness_set tx')).
Proof.
  destruct tx as [body [rs ss ds]], tx' as [body' [rs' ss' ds']].
  intros (Hb & Hr & Hd). simpl in *. by subst.
Qed.

Lemma extend_potential_scripts_nothing (tx : pycardano.Transaction)
    (utxos : list pycardano.UTxO) :
  pycardano.plutus_v2_script (pycardano.transaction_witness_set tx) = None
  \/ pycardano.plutus_v2_script (pycardano.transaction_witness_set tx) = Some []
  \/ reference_scripts utxos = [] ->
  extend_potential_scripts tx utxos = tx.
Proof.
  unfold extend_potential_scripts.
  destruct (pycardano.plutus_v2_script _) as [[|s l]|] eqn:Hs; try done.
  intros [H | [H | ->]]; try done.
  rewrite app_nil_r, <- Hs. symmetry.
  apply set_plutus_v2_script_same, same_but_scripts_refl.
Qed.

(** An iteration of the spending loop leaves the transaction as it is or
    as the appends to the pool leave it. *)
Lemma spending_invocation_state (info : TxInfo) (ri rri : list pycardano.UTxO) (i : nat)
    (u : pycardano.UTxO) (tx tx' : pycardano.Transaction)
    (r : result (option ScriptInvocation)) :
  spending_invocation info ri rri i u tx = (r, tx') ->
  tx' = tx
  \/ (script_controlled (pycardano.output u) = true
      /\ tx' = extend_potential_scripts tx (rri ++ ri)).
Proof.
  unfold spending_invocation, script_controlled. intros H.
  repeat case_match; simplify_eq; auto.
Qed.

Lemma spending_loop_unchanged (info : TxInfo) (ri rri : list pycardano.UTxO)
    (l : list pycardano.UTxO) :
  forall i tx r tx',
    pycardano.plutus_v2_script (pycardano.transaction_witness_set tx) = None
    \/ pycardano.plutus_v2_script (pycardano.transaction_witness_set tx) = Some []
    \/ reference_scripts (rri ++ ri) = []
    \/ Forall (fun u => script_controlled (pycardano.output u) = false) l ->
    spending_loop info ri rri i l tx = (r, tx') -> tx' = tx.
Proof.
  induction l as [|u l IH]; simpl; intros i tx r tx' Hcase H.
  - by injection H as <- <-.
  - destruct (spending_invocation info ri rri i u tx) as [[o|e] tx1] eqn:E1.
    + assert (tx1 = tx) as ->.
      { apply spending_invocation_state in E1 as [-> | [Hu ->]]; [done |].
        destruct Hcase as [Hc | [Hc | [Hc | Hc]]];
          try (apply extend_potential_scripts_nothing; tauto).
        apply Forall_cons in Hc as [Hc _]. congruence. }
      assert (pycardano.plutus_v2_script (pycardano.transaction_witness_set tx) = None
              \/ pycardano.plutus_v2_script (pycardano.transaction_witness_set tx) = Some []
              \/ reference_scripts (rri ++ ri) = []
              \/ Forall (fun u => script_controlled (pycardano.output u) = false) l)
        as Hcase'.
      { destruct Hcase as [Hc | [Hc | [Hc | Hc]]]; auto.
        apply Forall_cons in Hc as [_ Hc]. auto. }
      destruct (spending_loop info ri rri (S i) l tx) as [[invs|e] tx2] eqn:E2;
        injection H as <- <-; exact (IH _ _ _ _ Hcase' E2).
    + injection H as <- <-.
      apply spending_invocation_state in E1 as [-> | [Hu ->]]; [done |].
      destruct Hcase as [Hc | [Hc | [Hc | Hc]]];
        try (apply extend_potential_scripts_nothing; tauto).
      apply Forall_cons in Hc as [Hc _]. congruence.
Qed.

End MoreResolverFacts.

Section ResolverOutcome.
Context `{lib : pycardano.Library}.

(** ** The script list after a pass *)

Lemma spending_loop_scripts (info : TxInfo) (ri rri : list pycardano.UTxO)
    (l : list pycardano.UTxO) :
  forall i tx invs tx' s0 l0,
    pycardano.plutus_v2_script (pycardano.transaction_witness_set tx) = Some (s0 :: l0) ->
    spending_loop info ri rri i l tx = (Ok invs, tx') ->
    pycardano.plutus_v2_script (pycardano.transaction_witness_set tx')
    = Some ((s0 :: l0)
            ++ concat (replicate (length invs) (reference_scripts (rri ++ ri)))).
Proof.
  induction l as [|u l IH]; simpl; intros i tx invs tx' s0 l0 Hs H.
  - injection H as <- <-. simpl. by rewrite app_nil_r.
  - destruct (spending_invocation info ri rri i u tx) as [[o|e] tx1] eqn:E1; [| done].
    destruct (spending_loop info ri rri (S i) l tx1) as [[invs2|e] tx2] eqn:E2; [| done].
    injection H as <- <-. apply spending_invocation_Ok in E1.
    destruct (script_controlled (pycardano.output u)).
    + destruct E1 as (h & r & s & d & _ & _ & -> & _ & _ & ->).
      assert (pycardano.plutus_v2_script
                (pycardano.transaction_witness_set
                   (extend_potential_scripts tx (rri ++ ri)))
              = Some (s0 :: (l0 ++ reference_scripts (rri ++ ri)))) as Hs'.
      { unfold extend_potential_scripts. by rewrite Hs. }
      rewrite (IH _ _ _ _ _ _ Hs' E2). simpl. by rewrite <- app_assoc.
    + destruct E1 as [-> ->]. simpl. by apply (IH _ _ _ _ _ _ Hs E2).
Qed.

(** The transaction after a pass that returns. When scripts are attached,
    the script list of the witness set is left with the reference scripts
    of the resolved reference inputs and inputs appended to it once for
    each invocation returned; the rest of the transaction is as before.
    When no script is attached the transaction is unchanged. *)
Theorem generate_transaction_after (tx tx' : pycardano.Transaction)
    (ri rri : list pycardano.UTxO) (invs : list ScriptInvocation) :
  generate_script_contexts_resolved tx ri rri = (Ok invs, tx') ->
  tx' = match pycardano.plutus_v2_script (pycardano.transaction_witness_set tx) with
        | Some (s :: l) =>
            set_plutus_v2_script tx
              (Some ((s :: l)
                     ++ concat (replicate (length invs) (reference_scripts (rri ++ ri)))))
        | _ => tx
        end.
Proof.
  intros H. apply generate_Ok in H as (info & _ & Hloop & _).
  destruct (pycardano.plutus_v2_script _) as [[|s l]|] eqn:Hs.
  - apply (spending_loop_unchanged _ _ _ _ _ _ _ _ (or_intror (or_introl Hs)) Hloop).
  - rewrite <- (spending_loop_scripts _ _ _ _ _ _ _ _ _ _ Hs Hloop).
    apply set_plutus_v2_script_same. by apply spending_loop_same in Hloop.
  - apply (spending_loop_unchanged _ _ _ _ _ _ _ _ (or_introl Hs) Hloop).
Qed.

(** When a pass leaves the transaction as it was, whether it returns or
    raises: when no script is attached to the transaction, when no resolved
    input or reference input carries a reference script, and when no
    resolved input is script controlled. *)
Theorem generate_transaction_unchanged (tx tx' : pycardano.Transaction)
    (ri rri : list pycardano.UTxO) (r : result (list ScriptInvocation)) :
  pycardano.plutus_v2_script (pycardano.transaction_witness_set tx) = None
  \/ pycardano.plutus_v2_script (pycardano.transaction_witness_set tx) = Some []
  \/ reference_scripts (rri ++ ri) = []
  \/ Forall (fun u => script_controlled (pycardano.output u) = false) ri ->
  generate_script_contexts_resolved tx ri rri = (r, tx') ->
  tx' = tx.
Proof.
  intros Hcase. unfold generate_script_contexts_resolved.
  destruct (to_tx_info _ _ _) as [info|e]; [| by intros [= <- <-]].
  destruct (spending_loop info ri rri 0 ri tx) as [[spends|e] tx1] eqn:Hloop;
    apply (spending_loop_unchanged _ _ _ _ _ _ _ _ Hcase) in Hloop as ->.
  - destruct (minting_loop _ _ _ _); by intros [= <- <-].
  - by intros [= <- <-].
Qed.

(** ** What a pass that returns needs *)

Lemma to_tx_info_Ok_needs (tx : pycardano.Transaction)
    (ri rri : list pycardano.TransactionOutput) (info : TxInfo) :
  to_tx_info tx ri rri = Ok info ->
  (pycardano.certificates (pycardano.transaction_body tx) = None
   \/ pycardano.certificates (pycardano.transaction_body tx) = Some [])
  /\ exists rs, pycardano.redeemer (pycardano.transaction_witness_set tx) = Some rs.
Proof.
  unfold to_tx_info. intros H.
  destruct (comprehension to_tx_in_info _); simpl in H; [| done].
  destruct (match pycardano.reference_inputs _ with
            | Some _ => _ | None => _ end); simpl in H; [| done].
  destruct (comprehension to_tx_out _); simpl in H; [| done].
  destruct (multiasset_to_value _); simpl in H; [| done].
  destruct (pycardano.certificates _) as [[|c cs]|]; simpl in H; try done;
    (destruct (to_wdrl _); simpl in H; [| done]);
    (destruct (pycardano.redeemer _) as [rs|]; [| done]);
    (split; [auto | eauto]).
Qed.

Lemma script_controlled_true (o : pycardano.TransactionOutput) :
  script_controlled o = true ->
  exists h, pycardano.payment_part (pycardano.address o) = Some (pycardano.ScriptHash h).
Proof.
  unfold script_controlled.
  destruct (pycardano.payment_part _) as [[p|h|a b c]|]; try done. eauto.
Qed.

(** A pass returns a list only for a transaction whose witness set has a
    list of redeemers, whose body holds no certificate and mints nothing,
    and, if some resolved input is script controlled, to which at least one
    script is attached: reference scripts alone are not enough. *)
Theorem generate_returns_only_if (tx tx' : pycardano.Transaction)
    (ri rri : list pycardano.UTxO) (invs : list ScriptInvocation) :
  generate_script_contexts_resolved tx ri rri = (Ok invs, tx') ->
  (exists rs, pycardano.redeemer (pycardano.transaction_witness_set tx) = Some rs)
  /\ (pycardano.certificates (pycardano.transaction_body tx) = None
      \/ pycardano.certificates (pycardano.transaction_body tx) = Some [])
  /\ mint_policies tx = []
  /\ forall k u,
       ri !! k = Some u -> script_controlled (pycardano.output u) = true ->
       exists s l,
         pycardano.plutus_v2_script (pycardano.transaction_witness_set tx)
         = Some (s :: l).
Proof.
  intros H. apply generate_Ok in H as (info & Hinfo & Hloop & Hmint).
  apply to_tx_info_Ok_needs in Hinfo as [Hcerts Hrs].
  repeat split; try done.
  intros k u Hk Hu.
  destruct (spending_loop_at _ _ _ _ _ _ _ _ _ Hk Hloop)
    as (invs1 & tx_k & o & tx_k' & invs2 & Hpre & Hstep & _ & _).
  destruct (script_controlled_true _ Hu) as [h Hh].
  destruct (pycardano.plutus_v2_script _) as [[|s l]|] eqn:Hs; [| eauto |]; exfalso.
  - apply (spending_loop_unchanged _ _ _ _ _ _ _ _ (or_intror (or_introl Hs))) in Hpre
      as ->.
    destruct (spending_invocation_nothing_attached info ri rri k u tx h Hh
                (or_intror Hs)) as [Hraise | Hraise]; congruence.
  - apply (spending_loop_unchanged _ _ _ _ _ _ _ _ (or_introl Hs)) in Hpre as ->.
    destruct (spending_invocation_nothing_attached info ri rri k u tx h Hh
                (or_introl Hs)) as [Hraise | Hraise]; congruence.
Qed.

Lemma spending_loop_no_script (info : TxInfo) (ri rri : list pycardano.UTxO)
    (l : list pycardano.UTxO) :
  forall i tx,
    Forall (fun u => script_controlled (pycardano.output u) = false) l ->
    spending_loop info ri rri i l tx = (Ok [], tx).
Proof.
  induction l as [|u l IH]; simpl; intros i tx Hl; [done |].
  apply Forall_cons in Hl as [Hu Hl].
  assert (spending_invocation info ri rri i u tx = (Ok None, tx)) as ->.
  { unfold spending_invocation. unfold script_controlled in Hu.
    by destruct (pycardano.payment_part _) as [[p|h|a b c]|]. }
  by rewrite IH.
Qed.

(** A transaction that runs no script: when the transaction info is built,
    no resolved input is script controlled and nothing is minted, the pass
    returns the empty list and the transaction is unchanged. *)
Theorem generate_no_script (tx : pycardano.Transaction) (ri rri : list pycardano.UTxO)
    (info : TxInfo) :
  to_tx_info tx (map pycardano.output ri) (map pycardano.output rri) = Ok info ->
  Forall (fun u => script_controlled (pycardano.output u) = false) ri ->
  mint_policies tx = [] ->
  generate_script_contexts_resolved tx ri rri = (Ok [], tx).
Proof.
  intros Hinfo Hri Hmint. unfold generate_script_contexts_resolved.
  rewrite Hinfo, spending_loop_no_script by done. by rewrite Hmint.
Qed.

(** ** What every invocation of a returned list is *)

Lemma first_script_Found (target : bytes) (scripts : list pycardano.ScriptType)
    (s : pycardano.ScriptType) :
  first_script target scripts = Found s ->
  s ∈ scripts
  /\ exists b, as_plutus_v2 s = Some b /\ pycardano.plutus_script_hash b = target.
Proof.
  induction scripts as [|s' scripts IH]; simpl; [done |].
  destruct (as_plutus_v2 s') as [b|] eqn:Hb; [| done].
  case_decide as Hh.
  - intros [= <-]. split; [by left | eauto].
  - intros H. destruct (IH H) as [Hin Hs]. split; [by right | done].
Qed.

(** Every invocation of a returning loop comes of one of its iterations,
    run in a state that an invariant of the iterations holds of. *)
Lemma spending_loop_elem (P : pycardano.Transaction -> Prop) (info : TxInfo)
    (ri rri : list pycardano.UTxO) (l : list pycardano.UTxO) :
  (forall i u tx r tx',
      P tx -> spending_invocation info ri rri i u tx = (r, tx') -> P tx') ->
  forall i tx invs tx' inv,
    P tx ->
    spending_loop info ri rri i l tx = (Ok invs, tx') ->
    inv ∈ invs ->
    exists k u tx_k tx_k',
      l !! k = Some u /\ P tx_k
      /\ spending_invocation info ri rri (i + k) u tx_k = (Ok (Some inv), tx_k').
Proof.
  intros Hstep. induction l as [|u l IH]; simpl; intros i tx invs tx' inv HP H Hin.
  - injection H as <- <-. by apply elem_of_nil in Hin.
  - destruct (spending_invocation info ri rri i u tx) as [[o|e] tx1] eqn:E1; [| done].
    destruct (spending_loop info ri rri (S i) l tx1) as [[invs2|e] tx2] eqn:E2; [| done].
    injection H as <- <-. apply elem_of_app in Hin as [Hin | Hin].
    + destruct o as [inv'|]; simpl in Hin; [| by apply elem_of_nil in Hin].
      apply list_elem_of_singleton in Hin as ->.
      exists 0%nat, u, tx, tx1. rewrite Nat.add_0_r. by repeat split.
    + destruct (IH _ _ _ _ _ (Hstep _ _ _ _ _ HP E1) E2 Hin)
        as (k & u' & tx_k & tx_k' & Hk & HPk & Hinv).
      exists (S k), u', tx_k, tx_k'. repeat split; try done.
      by replace (i + S k)%nat with (S i + k)%nat by lia.
Qed.

(** The script of every invocation of a returned list is a script of the
    candidate pool (attached to the transaction, or the reference script of
    a resolved input or reference input) whose hash is the payment
    credential of the input that the invocation spends. *)
Theorem invocation_script_sound (tx tx' : pycardano.Transaction)
    (ri rri : list pycardano.UTxO) (invs : list ScriptInvocation)
    (inv : ScriptInvocation) :
  generate_script_contexts_resolved tx ri rri = (Ok invs, tx') ->
  inv ∈ invs ->
  exists k u h b,
    ri !! k = Some u
    /\ pycardano.payment_part (pycardano.address (pycardano.output u))
       = Some (pycardano.ScriptHash h)
    /\ invocation_purpose inv = Spending (to_tx_out_ref (pycardano.input u))
    /\ script_type inv ∈ spec_candidate_pool tx ri rri
    /\ as_plutus_v2 (script_type inv) = Some b
    /\ pycardano.plutus_script_hash b = h.
Proof.
  intros H Hin. apply generate_Ok in H as (info & _ & Hloop & _).
  set (P := fun tx_k : pycardano.Transaction =>
              forall l s,
                pycardano.plutus_v2_script (pycardano.transaction_witness_set tx_k) = Some l ->
                s ∈ l -> s ∈ spec_candidate_pool tx ri rri).
  assert (forall tx_k, P tx_k -> P (extend_potential_scripts tx_k (rri ++ ri))) as Hext.
  { intros tx_k HP l s. unfold extend_potential_scripts.
    destruct (pycardano.plutus_v2_script (pycardano.transaction_witness_set tx_k))
      as [[|s0 l0]|] eqn:Hs.
    - intros Hl Hs'. rewrite Hs in Hl. injection Hl as <-.
      by apply elem_of_nil in Hs'.
    - simpl. intros [= <-] Hs'.
      change (s ∈ (s0 :: l0) ++ reference_scripts (rri ++ ri)) in Hs'.
      apply elem_of_app in Hs' as [Hs' | Hs'].
      + by apply (HP _ _ Hs).
      + unfold spec_candidate_pool. apply elem_of_app. by right.
    - intros Hl. by rewrite Hs in Hl. }
  assert (P tx) as HP.
  { intros l s Hl Hs. unfold spec_candidate_pool. rewrite Hl. simpl.
    apply elem_of_app. by left. }
  assert (forall i u tx_k r tx_k',
             P tx_k -> spending_invocation info ri rri i u tx_k = (r, tx_k') -> P tx_k')
    as Hpres.
  { intros i u tx_k r tx_k' HPk E.
    apply spending_invocation_state in E as [-> | [_ ->]]; [done | by apply Hext]. }
  destruct (spending_loop_elem P info ri rri ri Hpres _ _ _ _ _ HP Hloop Hin)
    as (k & u & tx_k & tx_k' & Hk & HPk & Hstep).
  apply spending_invocation_Ok in Hstep.
  destruct (script_controlled (pycardano.output u)); [| by destruct Hstep].
  destruct Hstep as (h & r & s & d & Hp & _ & -> & Hs & _ & [= ->]).
  unfold next_script in Hs.
  destruct (pycardano.plutus_v2_script _) as [l|] eqn:Hl; [| done].
  apply first_script_Found in Hs as (Hsl & b & Hb & Hh).
  exists k, u, h, b. repeat split; try done.
  by apply (Hext _ HPk l).
Qed.

(** The invocations of a returned list share one transaction info, the one
    that [to_tx_info] builds for the transaction and the resolved outputs,
    and each of them has a datum. *)
Theorem invocation_context_shared (tx tx' : pycardano.Transaction)
    (ri rri : list pycardano.UTxO) (invs : list ScriptInvocation) :
  generate_script_contexts_resolved tx ri rri = (Ok invs, tx') ->
  exists info,
    to_tx_info tx (map pycardano.output ri) (map pycardano.output rri) = Ok info
    /\ Forall (fun inv => tx_info (script_context inv) = info /\ is_Some (datum inv)) invs.
Proof.
  intros H. apply generate_Ok in H as (info & Hinfo & Hloop & _).
  exists info. split; [done |]. apply Forall_forall. intros inv Hin.
  destruct (spending_loop_elem (fun _ => True) info ri rri ri
              (fun _ _ _ _ _ _ _ => I) _ _ _ _ _ I Hloop Hin)
    as (k & u & tx_k & tx_k' & _ & _ & Hstep).
  apply spending_invocation_Ok in Hstep.
  destruct (script_controlled (pycardano.output u)); [| by destruct Hstep].
  destruct Hstep as (h & r & s & d & _ & _ & _ & _ & _ & [= ->]). simpl. eauto.
Qed.

End ResolverOutcome.

Section ResolverOutcomeWitnesses.
Import Sample.
#[local] Existing Instance library.

(** Two inputs locked by the validator, which the reference input
    carries: it is appended twice. *)
Lemma generate_transaction_after_witness :
  exists invs tx',
    generate_script_contexts_resolved Scenario.tx_two_locked
      [utxo 0 locked_inline; utxo 1 locked_inline] [utxo 2 carrier]
    = (Ok invs, tx')
    /\ tx' = set_plutus_v2_script Scenario.tx_two_locked
               (Some [validator_b; validator_a; validator_a]).
Proof.
  eexists _, _. split; [reflexivity |].
  exact (generate_transaction_after Scenario.tx_two_locked _
           [utxo 0 locked_inline; utxo 1 locked_inline] [utxo 2 carrier] _ eq_refl).
Defined.

Lemma generate_transaction_unchanged_witness :
  (generate_script_contexts_resolved tx_reference_only
     [utxo 0 locked_inline] [utxo 1 carrier]).2
  = tx_reference_only.
Proof.
  apply (generate_transaction_unchanged tx_reference_only _
           [utxo 0 locked_inline] [utxo 1 carrier]
           (generate_script_contexts_resolved tx_reference_only
              [utxo 0 locked_inline] [utxo 1 carrier]).1
           (or_introl eq_refl)).
  apply surjective_pairing.
Defined.

Lemma generate_returns_only_if_witness :
  exists s l,
    pycardano.plutus_v2_script (pycardano.transaction_witness_set tx_attached_a)
    = Some (s :: l).
Proof.
  exact (proj2 (proj2 (proj2 (generate_returns_only_if tx_attached_a tx_attached_a
                                [utxo 0 locked_inline] [] _ eq_refl)))
           0%nat (utxo 0 locked_inline) eq_refl eq_refl).
Defined.

(** A payment from a key address. *)
Lemma generate_no_script_witness :
  generate_script_contexts_resolved
    (a_transaction (a_body [tx_input 0] None [key_output] None None) (Some []) None None)
    [utxo 0 key_output] []
  = (Ok [],
     a_transaction (a_body [tx_input 0] None [key_output] None None) (Some []) None None).
Proof.
  apply (generate_no_script
           (a_transaction (a_body [tx_input 0] None [key_output] None None)
              (Some []) None None)
           [utxo 0 key_output] [] _ eq_refl).
  - repeat constructor.
  - reflexivity.
Defined.

(** The validator found through the reference input is in the pool and has
    the hash of the credential. *)
Lemma invocation_script_sound_witness :
  exists inv tx',
    generate_script_contexts_resolved tx_attached_b [utxo 0 locked_inline] [utxo 1 carrier]
    = (Ok [inv], tx')
    /\ script_type inv ∈ spec_candidate_pool tx_attached_b
                            [utxo 0 locked_inline] [utxo 1 carrier].
Proof.
  eexists _, _. split; [reflexivity |].
  edestruct (invocation_script_sound tx_attached_b
               (set_plutus_v2_script tx_attached_b (Some [validator_b; validator_a]))
               [utxo 0 locked_inline] [utxo 1 carrier])
    as (k & u & h & b & _ & _ & _ & Hpool & _); [reflexivity | by left |].
  exact Hpool.
Defined.

Lemma invocation_context_shared_witness :
  exists info,
    to_tx_info Scenario.tx_two_locked
      (map pycardano.output [utxo 0 locked_inline; utxo 1 locked_inline])
      (map pycardano.output [utxo 2 carrier]) = Ok info
    /\ Forall (fun inv => tx_info (script_context inv) = info /\ is_Some (datum inv))
         (match (generate_script_contexts_resolved Scenario.tx_two_locked
                   [utxo 0 locked_inline; utxo 1 locked_inline] [utxo 2 carrier]).1 with
          | Ok invs => invs
          | Raise _ => []
          end).
Proof.
  exact (invocation_context_shared Scenario.tx_two_locked _
           [utxo 0 locked_inline; utxo 1 locked_inline] [utxo 2 carrier] _ eq_refl).
Defined.

End ResolverOutcomeWitnesses.


(** * The entry point over a builder *)

Section EntryPoint.
Context `{lib : pycardano.Library}.

Lemma dict_set_elem {K V} `{EqDecision K} (k k' : K) (v v' : V) (d : list (K * V)) :
  (k', v') ∈ dict_set k v d -> (k', v') ∈ d \/ (k' = k /\ v' = v).
Proof.
  induction d as [|[k0 v0] d IH]; simpl.
  - intros Hin. apply list_elem_of_singleton in Hin as [= -> ->]. by right.
  - case_decide as Hk; rewrite !elem_of_cons.
    + subst k0. intros [[= -> ->] | Hin]; [by right | left; by right].
    + intros [Heq | Hin]; [left; by left |].
      destruct (IH Hin) as [Hd | Hkv]; [left; by right | by right].
Qed.

Lemma input_to_resolved_output_None (utxos : list BuilderReference)
    (acc : list (pycardano.TransactionInput * pycardano.TransactionOutput)) :
  input_to_resolved_output utxos acc = None <-> exists i, ReferenceInput i ∈ utxos.
Proof.
  revert acc. induction utxos as [|[u|i] utxos IH]; simpl; intros acc.
  - split; [done |]. intros [i Hi]. by apply elem_of_nil in Hi.
  - rewrite IH. split; intros [i Hi]; exists i.
    + by right.
    + apply elem_of_cons in Hi as [Hi | Hi]; [done | exact Hi].
  - split; [| done]. intros _. exists i. by left.
Qed.

Lemma input_to_resolved_output_Some (utxos : list BuilderReference) :
  forall acc table,
    input_to_resolved_output utxos acc = Some table ->
    (forall i, i ∈ table.*1
               <-> i ∈ acc.*1 \/ exists u, ReferenceUTxO u ∈ utxos /\ pycardano.input u = i)
    /\ (forall i o, (i, o) ∈ table ->
          (i, o) ∈ acc
          \/ exists u, ReferenceUTxO u ∈ utxos
                       /\ pycardano.input u = i /\ pycardano.output u = o).
Proof.
  induction utxos as [|[u|i0] utxos IH]; simpl; intros acc table H.
  - injection H as <-. split.
    + intros i. split; [by left |]. intros [Hi | (u & Hu & _)]; [done |].
      by apply elem_of_nil in Hu.
    + intros i o Hio. by left.
  - destruct (IH _ _ H) as [Hkeys Hentries]. split.
    + intros i. rewrite Hkeys, dict_set_keys. split.
      * intros [[-> | Hi] | (u' & Hu' & Hi)].
        -- right. exists u. split; [by left | done].
        -- by left.
        -- right. exists u'. split; [by right | done].
      * intros [Hi | (u' & Hu' & Hi)]; [left; by right |].
        apply elem_of_cons in Hu' as [[= ->] | Hu'].
        -- left. by left.
        -- right. by exists u'.
    + intros i o Hio. destruct (Hentries _ _ Hio) as [Hacc | (u' & Hu' & Hi & Ho)].
      * apply dict_set_elem in Hacc as [Hacc | [-> ->]]; [by left |].
        right. exists u. split; [by left | done].
      * right. exists u'. split; [by right | done].
  - done.
Qed.

Lemma resolve_inputs_inr
    (table : list (pycardano.TransactionInput * pycardano.TransactionOutput))
    (ins : list pycardano.TransactionInput) (us : list pycardano.UTxO) :
  resolve_inputs table ins = inr us ->
  map pycardano.input us = ins
  /\ forall u, u ∈ us -> (pycardano.input u, pycardano.output u) ∈ table.
Proof.
  revert us. induction ins as [|i ins IH]; simpl; intros us.
  - intros [= <-]. split; [done |]. intros u Hu. by apply elem_of_nil in Hu.
  - destruct (dict_get i table) as [o|] eqn:Hget; [| done].
    destruct (resolve_inputs table ins) as [e|us']; [done |].
    intros [= <-]. destruct (IH _ eq_refl) as [Hmap Hin]. split.
    + simpl. by rewrite Hmap.
    + intros u Hu. apply elem_of_cons in Hu as [-> | Hu]; [| by apply Hin].
      simpl. by apply dict_get_Some.
Qed.

Lemma resolve_inputs_returns
    (table : list (pycardano.TransactionInput * pycardano.TransactionOutput))
    (ins : list pycardano.TransactionInput) :
  (exists us, resolve_inputs table ins = inr us) <-> Forall (fun i => i ∈ table.*1) ins.
Proof.
  induction ins as [|i ins IH]; simpl.
  - split; [constructor | eauto].
  - rewrite Forall_cons, <- IH. split.
    + intros [us H]. destruct (dict_get i table) as [o|] eqn:Hget; [| done].
      split.
      * destruct (decide (i ∈ table.*1)) as [|Hn]; [done |].
        apply dict_get_None in Hn. congruence.
      * destruct (resolve_inputs table ins); [done | eauto].
    + intros [Hi [us Hus]]. destruct (dict_get i table) as [o|] eqn:Hget.
      * rewrite Hus. eauto.
      * apply dict_get_None in Hget. done.
Qed.

Lemma resolve_inputs_KeyError
    (table : list (pycardano.TransactionInput * pycardano.TransactionOutput))
    (ins : list pycardano.TransactionInput) (e : EntryException) :
  resolve_inputs table ins = inl e ->
  exists i, e = KeyError i /\ i ∈ ins /\ i ∉ table.*1.
Proof.
  induction ins as [|i ins IH]; simpl; [done |].
  destruct (dict_get i table) as [o|] eqn:Hget.
  - destruct (resolve_inputs table ins) as [e'|us']; [| done].
    intros [= <-]. destruct (IH eq_refl) as (i' & -> & Hi' & Hn).
    exists i'. split; [done |]. split; [by right | done].
  - intros [= <-]. exists i. split; [done |]. split; [by left |].
    by apply dict_get_None.
Qed.

(** When the entry point gets to the resolver: exactly when every
    reference input of the builder is a [UTxO], the body built has a list
    of reference inputs (a body whose reference inputs are [None] makes the
    entry point raise a [TypeError], even when no reference input is
    needed), and every input and reference input of the body is the input
    of a utxo of the builder. *)
Theorem generate_script_contexts_returns_iff
    (build_full_fake_tx : TransactionBuilder -> pycardano.Transaction)
    (tx_builder : TransactionBuilder) :
  let tx_body := pycardano.transaction_body (build_full_fake_tx tx_builder) in
  (exists out, generate_script_contexts build_full_fake_tx tx_builder = inr out)
  <-> (forall i, ReferenceInput i ∉ builder_reference_inputs tx_builder)
      /\ exists refs,
           pycardano.reference_inputs tx_body = Some refs
           /\ forall i, i ∈ pycardano.inputs tx_body ++ refs ->
                exists u, ReferenceUTxO u ∈ builder_utxos tx_builder
                          /\ pycardano.input u = i.
Proof.
  intros tx_body. unfold generate_script_contexts. fold tx_body.
  assert ((exists i, ReferenceInput i ∈ builder_utxos tx_builder)
          <-> exists i, ReferenceInput i ∈ builder_reference_inputs tx_builder) as Hassert.
  { unfold builder_utxos. split; intros [i Hi]; exists i.
    - apply elem_of_app in Hi as [Hi | Hi]; [| done].
      apply list_elem_of_fmap in Hi as (u & [=] & _).
    - apply elem_of_app. by right. }
  destruct (input_to_resolved_output (builder_utxos tx_builder) []) as [table|] eqn:Htable.
  - assert (forall i, ReferenceInput i ∉ builder_reference_inputs tx_builder) as Hutxos.
    { intros i Hi.
      assert (input_to_resolved_output (builder_utxos tx_builder) [] = None); [| congruence].
      apply (proj2 (input_to_resolved_output_None _ [])), Hassert. eauto. }
    destruct (input_to_resolved_output_Some _ _ _ Htable) as [Hkeys _].
    assert (forall ins,
               Forall (fun i => i ∈ table.*1) ins
               <-> forall i, i ∈ ins ->
                     exists u, ReferenceUTxO u ∈ builder_utxos tx_builder
                               /\ pycardano.input u = i) as Hall.
    { intros ins. rewrite Forall_forall. apply forall_proper. intros i.
      rewrite Hkeys. split; intros Hi Hin; specialize (Hi Hin).
      - destruct Hi as [Hi | Hi]; [by apply elem_of_nil in Hi | done].
      - by right. }
    split.
    + intros [out H]. split; [exact Hutxos |].
      destruct (resolve_inputs table (pycardano.inputs tx_body)) as [e|ri] eqn:Hri;
        [done |].
      destruct (pycardano.reference_inputs tx_body) as [refs|]; [| done].
      destruct (resolve_inputs table refs) as [e|rri] eqn:Hrri; [done |].
      exists refs. split; [done |]. apply Hall, Forall_app. split.
      * apply resolve_inputs_returns. eauto.
      * apply resolve_inputs_returns. eauto.
    + intros (_ & refs & -> & Hins). apply Hall, Forall_app in Hins as [Hri Hrri].
      apply resolve_inputs_returns in Hri as [ri ->].
      apply resolve_inputs_returns in Hrri as [rri ->]. eauto.
  - split; [by intros [out H] |].
    intros [Hutxos _].
    apply (proj1 (input_to_resolved_output_None _ [])), Hassert in Htable as [i Hi].
    by destruct (Hutxos i).
Qed.

(** What the entry point passes to the resolver: the transaction built,
    and resolved inputs and reference inputs that are aligned with the
    inputs and the reference inputs of its body, each of them a utxo of the
    builder. *)
Theorem generate_script_contexts_aligned
    (build_full_fake_tx : TransactionBuilder -> pycardano.Transaction)
    (tx_builder : TransactionBuilder)
    (out : result (list ScriptInvocation) * pycardano.Transaction) :
  generate_script_contexts build_full_fake_tx tx_builder = inr out ->
  let tx := build_full_fake_tx tx_builder in
  exists ri rri,
    out = generate_script_contexts_resolved tx ri rri
    /\ map pycardano.input ri = pycardano.inputs (pycardano.transaction_body tx)
    /\ pycardano.reference_inputs (pycardano.transaction_body tx)
       = Some (map pycardano.input rri)
    /\ forall u, u ∈ ri ++ rri -> ReferenceUTxO u ∈ builder_utxos tx_builder.
Proof.
  intros H tx. unfold generate_script_contexts in H. fold tx in H.
  destruct (input_to_resolved_output _ _) as [table|] eqn:Htable; [| done].
  destruct (resolve_inputs table _) as [e|ri] eqn:Hri; [done |].
  destruct (pycardano.reference_inputs _) as [refs|]; [| done].
  destruct (resolve_inputs table refs) as [e|rri] eqn:Hrri; [done |].
  injection H as <-. exists ri, rri.
  apply resolve_inputs_inr in Hri as [Hri Hri'].
  apply resolve_inputs_inr in Hrri as [Hrri Hrri'].
  destruct (input_to_resolved_output_Some _ _ _ Htable) as [_ Hentries].
  repeat split; [done | by rewrite Hrri |].
  intros u Hu.
  assert ((pycardano.input u, pycardano.output u) ∈ table) as Hin.
  { apply elem_of_app in Hu as [Hu | Hu]; auto. }
  destruct (Hentries _ _ Hin) as [Hnil | (u' & Hu' & Hi & Ho)];
    [by apply elem_of_nil in Hnil |].
  destruct u, u'. simpl in *. by subst.
Qed.

(** The exceptions of the entry point: the assertion fails exactly when a
    reference input of the builder is not a [UTxO], and a [KeyError] names
    an input or reference input of the body that no utxo of the builder
    has. *)
Theorem generate_script_contexts_exceptions
    (build_full_fake_tx : TransactionBuilder -> pycardano.Transaction)
    (tx_builder : TransactionBuilder) :
  let tx_body := pycardano.transaction_body (build_full_fake_tx tx_builder) in
  (generate_script_contexts build_full_fake_tx tx_builder = inl AssertionError
   <-> exists i, ReferenceInput i ∈ builder_reference_inputs tx_builder)
  /\ forall i,
       generate_script_contexts build_full_fake_tx tx_builder = inl (KeyError i) ->
       i ∈ pycardano.inputs tx_body ++ default [] (pycardano.reference_inputs tx_body)
       /\ forall u, ReferenceUTxO u ∈ builder_utxos tx_builder -> pycardano.input u <> i.
Proof.
  intros tx_body. unfold generate_script_contexts. fold tx_body.
  assert ((exists i, ReferenceInput i ∈ builder_utxos tx_builder)
          <-> exists i, ReferenceInput i ∈ builder_reference_inputs tx_builder) as Hassert.
  { unfold builder_utxos. split; intros [i Hi]; exists i.
    - apply elem_of_app in Hi as [Hi | Hi]; [| done].
      apply list_elem_of_fmap in Hi as (u & [=] & _).
    - apply elem_of_app. by right. }
  destruct (input_to_resolved_output (builder_utxos tx_builder) []) as [table|] eqn:Htable.
  - split.
    + split.
      * intros H.
        destruct (resolve_inputs table (pycardano.inputs tx_body)) as [e|ri] eqn:Hri.
        { injection H as ->. by apply resolve_inputs_KeyError in Hri as (i & [=] & _). }
        destruct (pycardano.reference_inputs tx_body) as [refs|]; [| done].
        destruct (resolve_inputs table refs) as [e|rri] eqn:Hrri; [| done].
        injection H as ->. by apply resolve_inputs_KeyError in Hrri as (i & [=] & _).
      * intros Hi. apply Hassert in Hi.
        apply (proj2 (input_to_resolved_output_None _ [])) in Hi. congruence.
    + destruct (input_to_resolved_output_Some _ _ _ Htable) as [Hkeys _].
      assert (forall i, i ∉ table.*1 ->
                forall u, ReferenceUTxO u ∈ builder_utxos tx_builder ->
                          pycardano.input u <> i) as Hmissing.
      { intros i Hn u Hu Hi. apply Hn, Hkeys. right. eauto. }
      intros i H.
      destruct (resolve_inputs table (pycardano.inputs tx_body)) as [e|ri] eqn:Hri.
      { injection H as ->. apply resolve_inputs_KeyError in Hri as (i' & [= <-] & Hin & Hn).
        split; [apply elem_of_app; by left | by apply Hmissing]. }
      destruct (pycardano.reference_inputs tx_body) as [refs|]; [| done].
      destruct (resolve_inputs table refs) as [e|rri] eqn:Hrri; [| done].
      injection H as ->. apply resolve_inputs_KeyError in Hrri as (i' & [= <-] & Hin & Hn).
      split; [apply elem_of_app; by right | by apply Hmissing].
  - split; [| done]. split; [| done].
    intros _. apply Hassert. by apply (proj1 (input_to_resolved_output_None _ [])).
Qed.

End EntryPoint.

Lemma generate_script_contexts_returns_iff_witness :
  (exists out,
      @generate_script_contexts Sample.library Scenario.build Scenario.builder = inr out)
  /\ ~ exists out,
         @generate_script_contexts Sample.library (fun _ => Sample.tx_plain)
           Scenario.builder = inr out.
Proof.
  split.
  - apply (proj2 (@generate_script_contexts_returns_iff Sample.library
                    Scenario.build Scenario.builder)).
    split.
    + intros i Hi. apply list_elem_of_singleton in Hi. discriminate.
    + exists [Sample.tx_input 1]. split; [reflexivity |].
      intros i Hi. apply elem_of_cons in Hi as [-> | Hi].
      * exists (Sample.utxo 0 Sample.locked_inline). split; [by left | done].
      * apply list_elem_of_singleton in Hi as ->.
        exists (Sample.utxo 1 Sample.carrier). split; [right; by left | done].
  - intros H.
    apply (proj1 (@generate_script_contexts_returns_iff Sample.library
                    (fun _ => Sample.tx_plain) Scenario.builder)) in H
      as (_ & refs & Hrefs & _).
    discriminate.
Defined.

Lemma generate_script_contexts_aligned_witness :
  exists ri rri,
    map pycardano.input ri = [Sample.tx_input 0]
    /\ Some [Sample.tx_input 1] = Some (map pycardano.input rri).
Proof.
  destruct (@generate_script_contexts_aligned Sample.library Scenario.build
              Scenario.builder _ eq_refl) as (ri & rri & _ & Hri & Hrri & _).
  exists ri, rri. split; [exact Hri | exact Hrri].
Defined.

Lemma generate_script_contexts_exceptions_witness :
  @generate_script_contexts Sample.library Scenario.build
    {| builder_inputs := [];
       builder_reference_inputs := [ReferenceInput (Sample.tx_input 1)] |}
  = inl AssertionError.
Proof.
  apply (proj2 (proj1 (@generate_script_contexts_exceptions Sample.library Scenario.build
                         {| builder_inputs := [];
                            builder_reference_inputs :=
                              [ReferenceInput (Sample.tx_input 1)] |}))).
  exists (Sample.tx_input 1). by left.
Defined.


(** * The evaluator *)

Section Evaluation.
Context `{lib : pycardano.Library} {Outcome : Type}.
Variable hex : bytes -> string.
Variable unflat : string -> string.
Variable eval : string -> list string -> Z -> Z -> Outcome * list string * (Z * Z).
Variable to_cbor_hex : PlutusArgument -> string.

(** How an invocation of a returned list is evaluated. Its script is a
    Plutus script and it has a datum. When its redeemer has no execution
    units, [evaluate_script] raises [AttributeError] where it reads their
    steps, and the evaluator is not called. When the redeemer has units,
    the evaluator is called with the program of the script, three
    arguments in this order (the datum, the data of the redeemer, the
    script context), each encoded and wrapped as a data constant, and the
    steps and memory of the units as budget; [evaluate_script] returns the
    outcome and the cost of the evaluator, having printed its logs. *)
Theorem evaluate_script_of_resolved (tx tx' : pycardano.Transaction)
    (ri rri : list pycardano.UTxO) (invs : list ScriptInvocation)
    (inv : ScriptInvocation) :
  generate_script_contexts_resolved tx ri rri = (Ok invs, tx') ->
  inv ∈ invs ->
  let wrap a := String.append "(con data #" (String.append (to_cbor_hex a) ")") in
  exists b d,
    as_plutus_v2 (script_type inv) = Some b
    /\ datum inv = Some d
    /\ evaluate_script hex unflat eval to_cbor_hex inv
       = match pycardano.ex_units (redeemer inv) with
         | None => Raise PyAttributeError
         | Some units =>
             match eval (unflat (hex b))
                     [wrap (DataArgument d);
                      wrap (DataArgument (pycardano.data (redeemer inv)));
                      wrap (ContextArgument (script_context inv))]
                     (pycardano.steps units) (pycardano.mem units) with
             | (outcome, logs, cost) => Ok (logs, (outcome, cost))
             end
         end.
Proof.
  intros H Hin wrap. apply generate_Ok in H as (info & _ & Hloop & _).
  destruct (spending_loop_elem (fun _ => True) info ri rri ri
              (fun _ _ _ _ _ _ _ => I) _ _ _ _ _ I Hloop Hin)
    as (k & u & tx_k & tx_k' & _ & _ & Hstep).
  apply spending_invocation_Ok in Hstep.
  destruct (script_controlled (pycardano.output u)); [| by destruct Hstep].
  destruct Hstep as (h & r & s & d & _ & _ & _ & Hs & _ & [= ->]).
  unfold next_script in Hs.
  destruct (pycardano.plutus_v2_script _) as [l|]; [| done].
  apply first_script_Found in Hs as (_ & b & Hb & _).
  exists b, d. split; [exact Hb |]. split; [done |].
  unfold evaluate_script, evaluation_arguments, program_arguments.
  destruct s as [c|b'|b']; simpl in *; by simplify_eq.
Qed.

End Evaluation.

(** With an evaluator that gives back its arguments as logs and its budget
    as cost: the invocation of the sample is evaluated with its three
    arguments, and the same input spent with a redeemer without execution
    units raises. *)
Lemma evaluate_script_of_resolved_witness :
  (exists inv,
      (@generate_script_contexts_resolved Sample.library Sample.tx_attached_a
         [Sample.utxo 0 Sample.locked_inline] []).1 = Ok [inv]
      /\ exists context,
           evaluate_script id id (fun _ args steps mem => (tt, args, (steps, mem)))
             (fun a => match a with
                       | DataArgument (pycardano.RawCBOR payload) => payload
                       | _ => "context"%string
                       end) inv
           = Ok (["(con data #d)"%string; "(con data #unlock)"%string; context],
                 (tt, (0, 0))))
  /\ (exists inv,
         (@generate_script_contexts_resolved Sample.library Scenario.tx_without_units
            [Sample.utxo 0 Sample.locked_inline] []).1 = Ok [inv]
         /\ evaluate_script (Outcome := unit) id id
              (fun _ args steps mem => (tt, args, (steps, mem)))
              (fun _ => EmptyString) inv
            = Raise PyAttributeError).
Proof.
  split.
  - eexists. split; [reflexivity |]. eexists.
    edestruct (@evaluate_script_of_resolved Sample.library unit id id
                 (fun _ args steps mem => (tt, args, (steps, mem)))
                 (fun a => match a with
                           | DataArgument (pycardano.RawCBOR payload) => payload
                           | _ => "context"%string
                           end)
                 Sample.tx_attached_a Sample.tx_attached_a
                 [Sample.utxo 0 Sample.locked_inline] [])
      as (b & d & Hb & Hd & Heval); [reflexivity | by left |].
    rewrite Heval. injection Hb as <-. injection Hd as <-. reflexivity.
  - eexists. split; [reflexivity |].
    edestruct (@evaluate_script_of_resolved Sample.library unit id id
                 (fun _ args steps mem => (tt, args, (steps, mem)))
                 (fun _ => EmptyString)
                 Scenario.tx_without_units Scenario.tx_without_units
                 [Sample.utxo 0 Sample.locked_inline] [])
      as (b & d & _ & _ & Heval); [reflexivity | by left |].
    exact Heval.
Defined.

(** The second key does not decode: its exception is raised, whatever
    follows. *)
Lemma to_wdrl_raises_first_key_witness :
  @to_wdrl Scenario.decoding_library
    (Some [("stake:alice"%string, 5); ("stake:carol"%string, 1); ("stake:bob"%string, 7)])
  = Raise PyDecodeError.
Proof.
  apply (proj2 (@to_wdrl_raises_first_key Scenario.decoding_library
                  [("stake:alice"%string, 5); ("stake:carol"%string, 1);
                   ("stake:bob"%string, 7)] PyDecodeError)).
  exists [("stake:alice"%string, 5)], "stake:carol"%string, 1, [("stake:bob"%string, 7)].
  split; [reflexivity |]. split; [| reflexivity].
  repeat constructor. by exists (StakingHash (PubKeyCredential "alice")).
Defined.
